(** * toloka-kit streaming storage: a shallow embedding of
      [src/streaming/storage.py] and the properties of its two backends.

    The Python classes become modules ([BaseStorage],
    [BaseExternalLockerStorage], [JSONLocalStorage], [S3Storage]); their
    methods become functions in an error-and-state monad over a [World] that
    holds the file system, the buckets, the state of the lockers and the
    trace of the calls made to these collaborators. *)

From Stdlib Require Import ZArith String Ascii List Bool DecimalString.
From stdpp Require Import base option list gmap strings.

Local Open Scope string_scope.

(** ** Python objects *)

(** The fragment of Python objects that the storage code inspects: stored
    values, parsed JSON documents, lock handles and the attributes of the
    exceptions raised by a bucket.  A dict is an association list in
    insertion order; [PyFunction] stands for an object that cannot be
    pickled. *)
#[warnings="-register-all"]
Inductive pyobj : Type :=
| PyNone
| PyInt (n : Z)
| PyStr (s : string)
| PyDict (items : list (string * pyobj))
| PyFunction (name : string).

(** [d.get(k)] on the items of a dict. *)
Fixpoint dict_get (items : list (string * pyobj)) (k : string) : option pyobj :=
  match items with
  | [] => None
  | (k', v) :: rest => if String.eqb k' k then Some v else dict_get rest k
  end.

(** [d[k] = v]: an existing key keeps its position. *)
Fixpoint dict_set (items : list (string * pyobj)) (k : string) (v : pyobj)
  : list (string * pyobj) :=
  match items with
  | [] => [(k, v)]
  | (k', v') :: rest =>
      if String.eqb k' k then (k', v) :: rest else (k', v') :: dict_set rest k v
  end.

(** [{**d1, **d2}]. *)
Definition dict_merge (d1 d2 : list (string * pyobj)) : list (string * pyobj) :=
  fold_left (fun acc kv => dict_set acc (fst kv) (snd kv)) d2 d1.

(** [bool(o)]. *)
Definition truthy (o : pyobj) : bool :=
  match o with
  | PyNone => false
  | PyInt n => negb (Z.eqb n 0)
  | PyStr s => negb (String.eqb s "")
  | PyDict items => match items with [] => false | _ => true end
  | PyFunction _ => true
  end.

(** [sub in s] for two strings. *)
Fixpoint str_contains (sub s : string) : bool :=
  String.prefix sub s ||
  match s with
  | EmptyString => false
  | String _ rest => str_contains sub rest
  end.

Fixpoint endswith_char (s : string) (c : ascii) : bool :=
  match s with
  | EmptyString => false
  | String a EmptyString => Ascii.eqb a c
  | String _ rest => endswith_char rest c
  end.

(** ** Exceptions *)

Inductive exception : Type :=
| FileNotFoundError
| PermissionError
| IsADirectoryError
| OSError
| JSONDecodeError
| KeyError (k : string)
| TypeError
| PicklingError
| BinasciiError
| UnpicklingError
| EOFError
| AttributeError
| ForeignError (name : string) (attrs : list (string * pyobj)).
(** [ForeignError] is an exception class of another library (botocore's
    [ClientError], a transport error, ...) with its instance attributes. *)

(** [getattr(exc, name, None)]. *)
Definition getattr_or_none (exc : exception) (name : string) : pyobj :=
  match exc with
  | ForeignError _ attrs => default PyNone (dict_get attrs name)
  | _ => PyNone
  end.

Definition result (A : Type) : Type := exception + A.

(** ** Collaborators that are not part of storage.py *)

(** Modelled from the spec: streaming/locker.py is missing.  A Locker
    Capability is consumed through its truth value ([if self.locker]) and its
    [cleanup(lock)], which acts on the locker's own state and may raise. *)
Record BaseLocker (LS : Type) : Type := {
  lk_bool : bool;
  lk_cleanup : pyobj -> LS -> LS * option exception;
}.
Arguments lk_bool {LS} _.
Arguments lk_cleanup {LS} _ _ _.

(** Modelled from the spec: util/stored.py and streaming/locker.py are
    missing, json and base64 belong to the Python library.  The storage code
    is parametric in them. *)
Class Externals : Type := {
  LockerState : Type;
  (** [FileLocker(dirname)] *)
  FileLocker : string -> BaseLocker LockerState;
  (** digest of a key over a file-system-safe alphabet *)
  get_base64_digest : string -> string;
  (** provenance of the producer, a dict *)
  get_stored_meta : list (string * pyobj);
  (** [None]: the value cannot be pickled *)
  pickle_dumps_base64 : pyobj -> option string;
  (** on text or bytes: the object, or whatever exception decoding and
      unpickling raise *)
  pickle_loads_base64 : string -> result pyobj;
  (** the exception [pickle_loads_base64] raises on an object that is
      neither text nor bytes *)
  pickle_loads_base64_rejects : pyobj -> exception;
  (** [base64.b64encode(s.encode()).decode()] *)
  b64encode : string -> string;
  (** the text [json.dump(obj, file, indent=4)] writes *)
  json_dumps : pyobj -> string;
  (** [None]: [json.JSONDecodeError] *)
  json_loads : string -> option pyobj;
}.

(** Modelled from the spec: streaming/locker.py is missing.  A locker called
    on a key is a context manager: entering it yields the lock handle or
    raises; leaving it is told the exception of the protected region, if any,
    and answers whether it suppresses that exception, or raises. *)
Class LockerContext `{Externals} : Type := {
  lk_enter : BaseLocker LockerState -> string -> LockerState ->
             LockerState * result pyobj;
  lk_exit : BaseLocker LockerState -> pyobj -> option exception ->
            LockerState -> LockerState * result bool;
}.

(** ** The world *)

(** The errors the operating system answers with.  [ENOENT] stands for a
    missing directory on the path. *)
Inductive os_fault : Type := EACCES | EISDIR | EIO | ENOENT.

Definition raise_os_fault (f : os_fault) : exception :=
  match f with
  | EACCES => PermissionError
  | EISDIR => IsADirectoryError
  | EIO => OSError
  | ENOENT => FileNotFoundError
  end.

(** What a read or a removal is refused with before the file is looked up.
    That there is no such file is what [files] tells, also under a missing
    directory: an [ENOENT] of the system adds nothing for these two. *)
Definition refusal (answer : option os_fault) : option exception :=
  match answer with
  | Some ENOENT | None => None
  | Some f => Some (raise_os_fault f)
  end.

Inductive fs_op : Type := OpOpenR | OpOpenW | OpRemove.

(** The file system, path to content.  [fs_fault op path] is the error the
    system answers to [op] on [path], if any; for [OpOpenW], [ENOENT] is a
    file that cannot be created because its directory does not exist.
    [fs_quota path] is the number of characters that can be written to
    [path] before the device fails. *)
Record FS : Type := {
  files : gmap string string;
  fs_fault : fs_op -> string -> option os_fault;
  fs_quota : string -> option nat;
}.

Inductive s3_op : Type := OpUpload | OpDownload | OpDelete.

(** Buckets: (bucket, object name) to (body, metadata); [s3_fault op bucket
    name] is the exception the bucket resource raises on [op], if any. *)
Record S3 : Type := {
  objects : gmap (string * string) (string * pyobj);
  s3_fault : s3_op -> string -> string -> option exception;
}.

Inductive event : Type :=
| EvOpenR (path : string)
| EvOpenW (path : string)
| EvRemove (path : string)
| EvUpload (bucket name : string)
| EvDownload (bucket name : string)
| EvDelete (bucket name : string)
| EvLockerCleanup (lock : pyobj).

Record World `{Externals} : Type := {
  fs : FS;
  s3 : S3;
  lockers : LockerState;
  trace : list event;
}.

(** ** The monad of storage methods *)

Section Monad.
Context `{Externals}.

Definition M (A : Type) : Type := World -> World * result A.

Definition ret {A} (a : A) : M A := fun w => (w, inr a).
Definition raise {A} (e : exception) : M A := fun w => (w, inl e).
Definition bind {A B} (m : M A) (k : A -> M B) : M B :=
  fun w => match m w with
           | (w', inr a) => k a w'
           | (w', inl e) => (w', inl e)
           end.
(** [try: m  except: handler(exc)] *)
Definition try_except {A} (m : M A) (handler : exception -> M A) : M A :=
  fun w => match m w with
           | (w', inr a) => (w', inr a)
           | (w', inl e) => handler e w'
           end.

Definition log (e : event) : M unit :=
  fun w => ({| fs := fs w; s3 := s3 w; lockers := lockers w;
               trace := trace w ++ [e] |}, inr tt).
Definition set_files (m : gmap string string) : M unit :=
  fun w => ({| fs := {| files := m; fs_fault := fs_fault (fs w);
                        fs_quota := fs_quota (fs w) |};
               s3 := s3 w; lockers := lockers w; trace := trace w |}, inr tt).
Definition set_objects (m : gmap (string * string) (string * pyobj)) : M unit :=
  fun w => ({| fs := fs w;
               s3 := {| objects := m; s3_fault := s3_fault (s3 w) |};
               lockers := lockers w; trace := trace w |}, inr tt).
Definition set_lockers (ls : LockerState) : M unit :=
  fun w => ({| fs := fs w; s3 := s3 w; lockers := ls; trace := trace w |},
            inr tt).
Definition get : M World := fun w => (w, inr w).
End Monad.

Notation "'let*' x ':=' m 'in' k" := (bind m (fun x => k))
  (at level 10, x name, m at level 100, k at level 200,
   format "'[v' 'let*'  x  ':='  m  'in' '/' k ']'").

(** ** The operating system and the bucket resource *)

Section Primitives.
Context `{Externals}.

(** [open(path, 'r')] followed by [file.read()]. *)
Definition open_read (path : string) : M string :=
  let* _ := log (EvOpenR path) in
  let* w := get in
  match refusal (fs_fault (fs w) OpOpenR path) with
  | Some e => raise e
  | None =>
      match files (fs w) !! path with
      | None => raise FileNotFoundError
      | Some content => ret content
      end
  end.

(** [open(path, 'w')]: the file is created or truncated at once, unless the
    system refuses, which includes [FileNotFoundError] for a missing
    directory. *)
Definition open_write (path : string) : M unit :=
  let* _ := log (EvOpenW path) in
  let* w := get in
  match fs_fault (fs w) OpOpenW path with
  | Some f => raise (raise_os_fault f)
  | None => set_files (<[path := ""]> (files (fs w)))
  end.

(** Writing [text] to the open file and closing it: when the device accepts
    fewer characters than [text] has, what it accepted stays in the file. *)
Definition write_close (path text : string) : M unit :=
  let* w := get in
  match fs_quota (fs w) path with
  | Some n =>
      if (n <? String.length text)%nat
      then let* _ := set_files (<[path := substring 0 n text]> (files (fs w))) in
           raise OSError
      else set_files (<[path := text]> (files (fs w)))
  | None => set_files (<[path := text]> (files (fs w)))
  end.

(** [os.remove(path)]. *)
Definition os_remove (path : string) : M unit :=
  let* _ := log (EvRemove path) in
  let* w := get in
  match refusal (fs_fault (fs w) OpRemove path) with
  | Some e => raise e
  | None =>
      match files (fs w) !! path with
      | None => raise FileNotFoundError
      | Some _ => set_files (delete path (files (fs w)))
      end
  end.

(** [os.path.join(a, b)] of posixpath. *)
Definition os_path_join (a b : string) : string :=
  if String.prefix "/" b then b
  else if String.eqb a "" || endswith_char a "/" then a ++ b
  else a ++ "/" ++ b.

(** What a boto3 bucket raises for an object that does not exist. *)
Definition not_found_response : pyobj :=
  PyDict [("Error", PyDict [("Code", PyStr "404"); ("Message", PyStr "Not Found")])].
Definition ClientError_not_found : exception :=
  ForeignError "ClientError" [("response", not_found_response)].

(** [bucket.upload_fileobj(stream, name, ExtraArgs={'Metadata': metadata})]:
    one put of the whole body. *)
Definition upload_fileobj (bucket body name : string) (metadata : pyobj) : M unit :=
  let* _ := log (EvUpload bucket name) in
  let* w := get in
  match s3_fault (s3 w) OpUpload bucket name with
  | Some e => raise e
  | None => set_objects (<[(bucket, name) := (body, metadata)]> (objects (s3 w)))
  end.

(** [bucket.download_fileobj(name, file)], [file.seek(0)], [file.read()]. *)
Definition download_fileobj (bucket name : string) : M string :=
  let* _ := log (EvDownload bucket name) in
  let* w := get in
  match s3_fault (s3 w) OpDownload bucket name with
  | Some e => raise e
  | None =>
      match objects (s3 w) !! (bucket, name) with
      | None => raise ClientError_not_found
      | Some (body, _) => ret body
      end
  end.

(** [bucket.Object(name).delete()]; deleting a missing object succeeds. *)
Definition delete_object (bucket name : string) : M unit :=
  let* _ := log (EvDelete bucket name) in
  let* w := get in
  match s3_fault (s3 w) OpDelete bucket name with
  | Some e => raise e
  | None => set_objects (delete (bucket, name) (objects (s3 w)))
  end.

(** [obj[k]] on a parsed JSON document. *)
Definition getitem (obj : pyobj) (k : string) : result pyobj :=
  match obj with
  | PyDict items =>
      match dict_get items k with
      | Some v => inr v
      | None => inl (KeyError k)
      end
  | _ => inl TypeError
  end.

(** [pickle_loads_base64(s)] on text or bytes. *)
Definition pickle_loads (s : string) : result pyobj := pickle_loads_base64 s.

(** [pickle_loads_base64(o)] on an object of a JSON document. *)
Definition pickle_loads_obj (o : pyobj) : result pyobj :=
  match o with
  | PyStr s => pickle_loads s
  | _ => inl (pickle_loads_base64_rejects o)
  end.

Definition rbind {A B} (r : result A) (k : A -> result B) : result B :=
  match r with inr a => k a | inl e => inl e end.

Definition lift {A} (r : result A) : M A :=
  match r with inr a => ret a | inl e => raise e end.

End Primitives.

(** ** class BaseStorage *)

Module BaseStorage.
Section Methods.
Context `{Externals}.

(** [f'{self.__class__.__name__}_{get_base64_digest(key)}']; [self] is
    consulted for the name of its class only. *)
Definition _get_path_by_key (class_name key : string) : string :=
  class_name ++ "_" ++ get_base64_digest key.

End Methods.
End BaseStorage.

(** ** class BaseExternalLockerStorage *)

Module BaseExternalLockerStorage.
Section Methods.
Context `{Externals}.

(** [self] is its [locker] attribute, [None] by default. *)
Definition cleanup (locker : option (BaseLocker LockerState))
    (key : string) (lock : pyobj) : M unit :=
  match locker with
  | Some l =>
      if lk_bool l then
        let* _ := log (EvLockerCleanup lock) in
        let* w := get in
        let '(ls, r) := lk_cleanup l lock (lockers w) in
        let* _ := set_lockers ls in
        match r with Some e => raise e | None => ret tt end
      else ret tt
  | None => ret tt
  end.

End Methods.

Section Lock.
Context `{LockerContext}.

(** [self.locker(key).__enter__()]. *)
Definition locker_enter (l : BaseLocker LockerState) (key : string) : M pyobj :=
  let* w := get in
  let '(ls, r) := lk_enter l key (lockers w) in
  let* _ := set_lockers ls in
  lift r.

(** The [__exit__] of [self.locker(key)], given the exception of the region. *)
Definition locker_exit (l : BaseLocker LockerState) (handle : pyobj)
    (exc : option exception) : M bool :=
  let* w := get in
  let '(ls, r) := lk_exit l handle exc (lockers w) in
  let* _ := set_lockers ls in
  lift r.

(** The protected region is run and its outcome kept, as [with] does. *)
Definition attempt {A} (m : M A) : M (result A) :=
  fun w => let '(w', r) := m w in (w', inr r).

(** What contextlib raises when the generator yields again after the
    exception of the region was thrown into it. *)
Definition generator_didnt_stop : exception := ForeignError "RuntimeError" [].

(** [with self.lock(key) as lock: body(lock)].  With a locker the generator
    yields inside [with self.locker(key) as lock]; an exception of the region
    is thrown in at that [yield], so that when the locker suppresses it the
    [return] is skipped and the generator reaches [yield None]. *)
Definition lock {A} (locker : option (BaseLocker LockerState)) (key : string)
    (body : pyobj -> M A) : M A :=
  match locker with
  | Some l =>
      if lk_bool l then
        let* handle := locker_enter l key in
        let* outcome := attempt (body handle) in
        match outcome with
        | inr a =>
            let* _ := locker_exit l handle None in
            ret a
        | inl exc =>
            let* suppressed := locker_exit l handle (Some exc) in
            if suppressed then raise generator_didnt_stop else raise exc
        end
      else body PyNone
  | None => body PyNone
  end.

End Lock.
End BaseExternalLockerStorage.

(** ** class JSONLocalStorage *)

Module JSONLocalStorage.
Section Methods.
Context `{Externals}.

(** The [locker] argument of the constructor,
    [Union[None, DefaultNearbyFileLocker, BaseLocker]]. *)
Inductive locker_arg : Type :=
| ArgNone
| DefaultNearbyFileLocker
| ArgLocker (l : BaseLocker LockerState).

(** An instance after construction; [class_name] is
    [self.__class__.__name__], which a subclass changes. *)
Record t : Type := {
  class_name : string;
  dirname : string;
  locker : option (BaseLocker LockerState);
}.

Definition __name__ : string := "JSONLocalStorage".

(** The value [self.locker] has once [__attrs_post_init__] has run. *)
Definition __attrs_post_init__ (dirname : string) (locker : locker_arg)
  : option (BaseLocker LockerState) :=
  match locker with
  | DefaultNearbyFileLocker => Some (FileLocker dirname)
  | ArgNone => None
  | ArgLocker l => Some l
  end.

(** The constructor attrs generates: an omitted [dirname] is ['/tmp'], an
    omitted [locker] is made by the factory [DefaultNearbyFileLocker]. *)
Definition new (class_name : string) (dirname : option string)
    (locker : option locker_arg) : t :=
  let dirname := default "/tmp" dirname in
  let locker := default DefaultNearbyFileLocker locker in
  {| class_name := class_name; dirname := dirname;
     locker := __attrs_post_init__ dirname locker |}.

Definition _get_path_by_key (self : t) (key : string) : string :=
  os_path_join (dirname self) (BaseStorage._get_path_by_key (class_name self) key).

(** The dict [save] hands to [json.dump]. *)
Definition envelope (key payload : string) : pyobj :=
  PyDict [("key", PyStr (b64encode key)); ("value", PyStr payload);
          ("meta", PyDict get_stored_meta)].

Definition save (self : t) (key : string) (value : pyobj) : M unit :=
  let path := _get_path_by_key self key in
  let* _ := open_write path in
  match pickle_dumps_base64 value with
  | None => raise PicklingError
  | Some payload => write_close path (json_dumps (envelope key payload))
  end.

(** [pickle_loads_base64(json.loads(content)['value'])]. *)
Definition parse_envelope (content : string) : result pyobj :=
  match json_loads content with
  | None => inl JSONDecodeError
  | Some doc => rbind (getitem doc "value") pickle_loads_obj
  end.

(** The body of the [try] statement of [load]. *)
Definition load_body (path : string) : M pyobj :=
  let* content := open_read path in
  if negb (String.eqb content "")
  then lift (parse_envelope content)
  else ret PyNone.

Definition load (self : t) (key : string) : M pyobj :=
  let path := _get_path_by_key self key in
  try_except (load_body path)
    (fun exc => match exc with
                | FileNotFoundError => ret PyNone
                | _ => raise exc
                end).

(** The [try] statement of [cleanup]. *)
Definition remove_envelope (self : t) (key : string) : M unit :=
  try_except (os_remove (_get_path_by_key self key))
    (fun exc => match exc with
                | FileNotFoundError => ret tt
                | _ => raise exc
                end).

Definition cleanup (self : t) (key : string) (lock : pyobj) : M unit :=
  let* _ := remove_envelope self key in
  BaseExternalLockerStorage.cleanup (locker self) key lock.

End Methods.
End JSONLocalStorage.

(** ** class S3Storage *)

Module S3Storage.
Section Methods.
Context `{Externals}.

(** An instance; [bucket] names the bucket resource it was given. *)
Record t : Type := {
  class_name : string;
  bucket : string;
  locker : option (BaseLocker LockerState);
}.

Definition __name__ : string := "S3Storage".

(** The constructor attrs generates: an omitted [locker] is [None]. *)
Definition new (class_name : string) (bucket : string)
    (locker : option (option (BaseLocker LockerState))) : t :=
  {| class_name := class_name; bucket := bucket;
     locker := default None locker |}.

Definition _get_path_by_key (self : t) (key : string) : string :=
  BaseStorage._get_path_by_key (class_name self) key.

(** [k in o]. *)
Definition contains (k : string) (o : pyobj) : result bool :=
  match o with
  | PyDict items => inr (bool_decide (is_Some (dict_get items k)))
  | PyStr s => inr (str_contains k s)
  | _ => inl TypeError
  end.

(** [o == s] for a string literal [s]. *)
Definition eq_str (o : pyobj) (s : string) : bool :=
  match o with
  | PyStr s' => String.eqb s' s
  | _ => false
  end.

(** [a and b], where [b] is evaluated only if [a] holds. *)
Definition and_then (a : result bool) (b : result bool) : result bool :=
  rbind a (fun x => if x then b else inr false).

Definition _is_not_found_error (exc : exception) : result bool :=
  let response := getattr_or_none exc "response" in
  match response with
  | PyDict items =>
      let error_info := default PyNone (dict_get items "Error") in
      rbind (and_then (inr (truthy error_info))
               (and_then (contains "Code" error_info)
                         (contains "Message" error_info)))
        (fun cond =>
           if cond then
             and_then
               (rbind (getitem error_info "Code") (fun c => inr (eq_str c "404")))
               (rbind (getitem error_info "Message")
                      (fun m => inr (eq_str m "Not Found")))
           else inr false)
  | _ => inr false
  end.

(** The metadata of the uploaded object, [{'key': key, **get_stored_meta()}]. *)
Definition metadata (key : string) : pyobj :=
  PyDict (dict_merge [("key", PyStr key)] get_stored_meta).

Definition save (self : t) (key : string) (value : pyobj) : M unit :=
  let path := _get_path_by_key self key in
  match pickle_dumps_base64 value with
  | None => raise PicklingError
  | Some payload => upload_fileobj (bucket self) payload path (metadata key)
  end.

(** The body of the [try] statement of [load]. *)
Definition load_body (self : t) (path : string) : M pyobj :=
  let* content := download_fileobj (bucket self) path in
  if negb (String.eqb content "")
  then lift (pickle_loads content)
  else ret PyNone.

Definition load (self : t) (key : string) : M pyobj :=
  let path := _get_path_by_key self key in
  try_except (load_body self path)
    (fun exc => match _is_not_found_error exc with
                | inr true => ret PyNone
                | inr false => raise exc
                | inl e => raise e
                end).

(** The [try] statement of [cleanup]. *)
Definition delete_envelope (self : t) (key : string) : M unit :=
  try_except (delete_object (bucket self) (_get_path_by_key self key))
    (fun _ => ret tt).

Definition cleanup (self : t) (key : string) (lock : pyobj) : M unit :=
  let* _ := delete_envelope self key in
  BaseExternalLockerStorage.cleanup (locker self) key lock.

End Methods.
End S3Storage.

(** ** The claims of the specification, as predicates *)

Section Statements.
Context `{Externals}.

(** What the [except] clause of the local [load] makes of the outcome of
    the [try] body. *)
Definition local_load_handler (r : result pyobj) : result pyobj :=
  match r with
  | inl FileNotFoundError => inr PyNone
  | _ => r
  end.

(** What the [except] clause of the S3 [load] makes of an exception. *)
Definition s3_load_handler (exc : exception) : result pyobj :=
  match S3Storage._is_not_found_error exc with
  | inr true => inr PyNone
  | inr false => inl exc
  | inl e => inl e
  end.

(** The exception has a [response] mapping whose [Error] mapping has the
    code ['404'] and the message ['Not Found']. *)
Definition not_found_shape (exc : exception) : Prop :=
  exists items info,
    getattr_or_none exc "response" = PyDict items /\
    dict_get items "Error" = Some (PyDict info) /\
    dict_get info "Code" = Some (PyStr "404") /\
    dict_get info "Message" = Some (PyStr "Not Found").



(** "[load] returns absent exactly when the backend reports not-found". *)
Definition local_absent_iff_not_found (self : JSONLocalStorage.t)
    (key : string) (w : World) : Prop :=
  snd (JSONLocalStorage.load self key w) = inr PyNone <->
  snd (open_read (JSONLocalStorage._get_path_by_key self key) w)
    = inl FileNotFoundError.

Definition s3_absent_iff_not_found (self : S3Storage.t)
    (key : string) (w : World) : Prop :=
  snd (S3Storage.load self key w) = inr PyNone <->
  exists e,
    snd (download_fileobj (S3Storage.bucket self)
           (S3Storage._get_path_by_key self key) w) = inl e /\
    not_found_shape e.

(** "A [save] that fails leaves the complete prior envelope or the complete
    new one in the file". *)
Definition local_save_is_atomic (self : JSONLocalStorage.t) (key : string)
    (value : pyobj) (w : World) : Prop :=
  let after := JSONLocalStorage.save self key value w in
  forall e old,
    files (fs w) !! JSONLocalStorage._get_path_by_key self key = Some old ->
    snd after = inl e ->
    files (fs (fst after)) !! JSONLocalStorage._get_path_by_key self key
      = Some old \/
    exists payload,
      pickle_dumps_base64 value = Some payload /\
      files (fs (fst after)) !! JSONLocalStorage._get_path_by_key self key
        = Some (json_dumps (JSONLocalStorage.envelope key payload)).

(** "Every error of the deletion is suppressed and [cleanup] goes on to the
    locker", for the local backend. *)
Definition local_deletion_errors_suppressed (self : JSONLocalStorage.t)
    (key : string) (lock : pyobj) (w : World) : Prop :=
  forall e,
    snd (os_remove (JSONLocalStorage._get_path_by_key self key) w) = inl e ->
    JSONLocalStorage.cleanup self key lock w =
    BaseExternalLockerStorage.cleanup (JSONLocalStorage.locker self) key lock
      (fst (os_remove (JSONLocalStorage._get_path_by_key self key) w)).

(** What the clean-up of the locker answers, [self.locker.cleanup(lock)]
    under [if self.locker], on the locker state [ls]. *)
Definition release_outcome (locker : option (BaseLocker LockerState))
    (lock : pyobj) (ls : LockerState) : result unit :=
  match locker with
  | Some l =>
      if lk_bool l then
        match snd (lk_cleanup l lock ls) with
        | Some e => inl e
        | None => inr tt
        end
      else inr tt
  | None => inr tt
  end.

(** The locker state it leaves. *)
Definition released (locker : option (BaseLocker LockerState))
    (lock : pyobj) (ls : LockerState) : LockerState :=
  match locker with
  | Some l => if lk_bool l then fst (lk_cleanup l lock ls) else ls
  | None => ls
  end.



(** The events the clean-up of the locker adds. *)
Definition release_events (locker : option (BaseLocker LockerState))
    (lock : pyobj) : list event :=
  match locker with
  | Some l => if lk_bool l then [EvLockerCleanup lock] else []
  | None => []
  end.

End Statements.

(** ** A concrete set of collaborators

    Modelled from the spec: an instance of the collaborators that
    storage.py imports, on which the methods run by computation.  The codec is
    lossless on the objects that contain no function, JSON is printed the way
    [indent=4] prints it, and lockers never refuse a clean-up. *)

Module Sample.

Definition is_space (c : ascii) : bool :=
  Ascii.eqb c " " || Ascii.eqb c "010" || Ascii.eqb c "009" || Ascii.eqb c "013".

Definition is_digit (c : ascii) : bool :=
  let n := nat_of_ascii c in (48 <=? n)%nat && (n <=? 57)%nat.

Fixpoint repeat_string (n : nat) (s : string) : string :=
  match n with O => "" | S k => s ++ repeat_string k s end.

Definition newline : string := String "010" "".
Definition quote : string := String "034" "".

(** [json.dumps(o, indent=4)] at nesting depth [depth]. *)
Fixpoint json_print (depth : nat) (o : pyobj) : string :=
  match o with
  | PyNone => "null"
  | PyInt n => DecimalString.NilZero.string_of_int (Z.to_int n)
  | PyStr s => quote ++ s ++ quote
  | PyFunction _ => "null"
  | PyDict [] => "{}"
  | PyDict ((k0, v0) :: rest) =>
      let member k v :=
        repeat_string (S depth) "    " ++ quote ++ k ++ quote ++ ": " ++ v in
      "{" ++ newline ++ member k0 (json_print (S depth) v0) ++
      (fix members (l : list (string * pyobj)) : string :=
         match l with
         | [] => ""
         | (k, v) :: l' =>
             "," ++ newline ++ member k (json_print (S depth) v) ++ members l'
         end) rest ++
      newline ++ repeat_string depth "    " ++ "}"
  end.

Fixpoint skip_ws (s : string) : string :=
  match s with
  | String c r => if is_space c then skip_ws r else s
  | EmptyString => s
  end.

(** The text up to the closing quote, and what follows it. *)
Fixpoint scan_string (s : string) : option (string * string) :=
  match s with
  | EmptyString => None
  | String c r =>
      if Ascii.eqb c "034" then Some ("", r)
      else if Ascii.eqb c "\" then None
      else match scan_string r with
           | Some (x, r') => Some (String c x, r')
           | None => None
           end
  end.

Fixpoint scan_digits (s : string) : string * string :=
  match s with
  | String c r =>
      if is_digit c then let '(d, r') := scan_digits r in (String c d, r')
      else ("", s)
  | EmptyString => ("", s)
  end.

Definition scan_int (s : string) : option (Z * string) :=
  let '(sign, body) :=
    match s with
    | String "-" r => ("-", r)
    | _ => ("", s)
    end in
  let '(digits, r) := scan_digits body in
  match digits with
  | EmptyString => None
  | _ =>
      match DecimalString.NilZero.int_of_string (sign ++ digits) with
      | Some i => Some (Z.of_int i, r)
      | None => None
      end
  end.

(** A JSON value at the head of [s], and the rest of [s]. *)
Fixpoint json_parse_value (fuel : nat) (s : string) : option (pyobj * string) :=
  match fuel with
  | O => None
  | S fuel' =>
      match skip_ws s with
      | String "n" (String "u" (String "l" (String "l" r))) => Some (PyNone, r)
      | String "034" r =>
          match scan_string r with
          | Some (x, r') => Some (PyStr x, r')
          | None => None
          end
      | String "{" r =>
          match skip_ws r with
          | String "}" r' => Some (PyDict [], r')
          | _ =>
              match json_parse_members fuel' r with
              | Some (items, r') => Some (PyDict items, r')
              | None => None
              end
          end
      | s' =>
          match scan_int s' with
          | Some (n, r) => Some (PyInt n, r)
          | None => None
          end
      end
  end
with json_parse_members (fuel : nat) (s : string)
  : option (list (string * pyobj) * string) :=
  match fuel with
  | O => None
  | S fuel' =>
      match skip_ws s with
      | String "034" r =>
          match scan_string r with
          | Some (k, r1) =>
              match skip_ws r1 with
              | String ":" r2 =>
                  match json_parse_value fuel' r2 with
                  | Some (v, r3) =>
                      match skip_ws r3 with
                      | String "," r4 =>
                          match json_parse_members fuel' r4 with
                          | Some (items, r5) => Some ((k, v) :: items, r5)
                          | None => None
                          end
                      | String "}" r4 => Some ([(k, v)], r4)
                      | _ => None
                      end
                  | None => None
                  end
              | _ => None
              end
          | None => None
          end
      | _ => None
      end
  end.

Definition json_parse (s : string) : option pyobj :=
  match json_parse_value (S (String.length s)) s with
  | Some (o, r) =>
      match skip_ws r with
      | EmptyString => Some o
      | _ => None
      end
  | None => None
  end.

(** Objects the codec serializes: those that contain no function. *)
Fixpoint picklable (o : pyobj) : bool :=
  match o with
  | PyFunction _ => false
  | PyDict items =>
      (fix all (l : list (string * pyobj)) : bool :=
         match l with
         | [] => true
         | (_, v) :: l' => picklable v && all l'
         end) items
  | _ => true
  end.

Definition hex_digit (n : nat) : ascii :=
  ascii_of_nat (if (n <? 10)%nat then 48 + n else 87 + n).

(** Two hexadecimal digits per character. *)
Fixpoint hex (s : string) : string :=
  match s with
  | EmptyString => ""
  | String c r =>
      let n := nat_of_ascii c in
      String (hex_digit (n / 16)) (String (hex_digit (n mod 16)) (hex r))
  end.

Definition hex_value (c : ascii) : option nat :=
  let n := nat_of_ascii c in
  if is_digit c then Some (n - 48)
  else if (97 <=? n)%nat && (n <=? 102)%nat then Some (n - 87)
  else None.

Fixpoint unhex (s : string) : option string :=
  match s with
  | EmptyString => Some ""
  | String a (String b r) =>
      match hex_value a, hex_value b, unhex r with
      | Some x, Some y, Some r' => Some (String (ascii_of_nat (16 * x + y)) r')
      | _, _, _ => None
      end
  | String _ EmptyString => None
  end.

(** The codec: the printed object, in hexadecimal. *)
Definition codec_dumps (o : pyobj) : option string :=
  if picklable o then Some (hex (json_print 0 o)) else None.

Definition codec_loads (s : string) : result pyobj :=
  match unhex s with
  | Some "" => inl EOFError
  | Some body =>
      match json_parse body with
      | Some o => inr o
      | None => inl UnpicklingError
      end
  | None => inl BinasciiError
  end.

(** A locker whose state is the list of the handles it has cleaned up. *)
Definition list_locker : BaseLocker (list pyobj) :=
  {| lk_bool := true; lk_cleanup := fun lock ls => (lock :: ls, None) |}.

#[export] Instance externals : Externals := {|
  LockerState := list pyobj;
  FileLocker := fun _ => list_locker;
  get_base64_digest := hex;
  get_stored_meta := [("version", PyStr "1.0")];
  pickle_dumps_base64 := codec_dumps;
  pickle_loads_base64 := codec_loads;
  pickle_loads_base64_rejects := fun _ => AttributeError;
  b64encode := hex;
  json_dumps := json_print 0;
  json_loads := json_parse;
|}.

(** A world with nothing stored and no failing device. *)
Definition empty_world : World := {|
  fs := {| files := ∅; fs_fault := fun _ _ => None; fs_quota := fun _ => None |};
  s3 := {| objects := ∅; s3_fault := fun _ _ _ => None |};
  lockers := [];
  trace := [];
|}.

Definition local : JSONLocalStorage.t :=
  JSONLocalStorage.new JSONLocalStorage.__name__ None None.

Definition remote : S3Storage.t :=
  S3Storage.new S3Storage.__name__ "state" None.

Definition with_file (path content : string) (w : World) : World := {|
  fs := {| files := <[path := content]> (files (fs w));
           fs_fault := fs_fault (fs w); fs_quota := fs_quota (fs w) |};
  s3 := s3 w; lockers := lockers w; trace := trace w;
|}.

Definition with_object (bucket name body : string) (w : World) : World := {|
  fs := fs w;
  s3 := {| objects := <[(bucket, name) := (body, PyDict [])]> (objects (s3 w));
           s3_fault := s3_fault (s3 w) |};
  lockers := lockers w; trace := trace w;
|}.

(** The system answers [f] to every [op]. *)
Definition with_fs_fault (op : fs_op) (f : os_fault) (w : World) : World := {|
  fs := {| files := files (fs w);
           fs_fault := fun op' path =>
             match op, op' with
             | OpOpenR, OpOpenR | OpOpenW, OpOpenW | OpRemove, OpRemove => Some f
             | _, _ => fs_fault (fs w) op' path
             end;
           fs_quota := fs_quota (fs w) |};
  s3 := s3 w; lockers := lockers w; trace := trace w;
|}.

(** The device accepts [n] characters per file. *)
Definition with_quota (n : nat) (w : World) : World := {|
  fs := {| files := files (fs w); fs_fault := fs_fault (fs w);
           fs_quota := fun _ => Some n |};
  s3 := s3 w; lockers := lockers w; trace := trace w;
|}.

Definition key : string := "pipeline-1".
Definition state : pyobj := PyDict [("offset", PyInt 42)].
Definition next_state : pyobj := PyDict [("offset", PyInt 43)].
Definition callback : pyobj := PyFunction "on_item".
Definition handle : pyobj := PyStr "lock-1".

Definition local_path : string := JSONLocalStorage._get_path_by_key local key.
Definition remote_name : string := S3Storage._get_path_by_key remote key.

(** The world after [state] has been saved under [key]. *)
Definition saved_locally : World :=
  fst (JSONLocalStorage.save local key state empty_world).
Definition saved_remotely : World :=
  fst (S3Storage.save remote key state empty_world).

(** Worlds where the stored entity of [key] is empty, or is not an envelope. *)
Definition empty_file : World := with_file local_path "" empty_world.
Definition empty_object : World :=
  with_object (S3Storage.bucket remote) remote_name "" empty_world.
Definition garbled_file : World := with_file local_path "{]" empty_world.

(** A directory from which nothing can be removed. *)
Definition sealed : World := with_fs_fault OpRemove EACCES saved_locally.

(** A bucket that refuses every download with [exc]. *)
Definition with_download_error (exc : exception) (w : World) : World := {|
  fs := fs w;
  s3 := {| objects := objects (s3 w);
           s3_fault := fun op bucket name =>
             match op with
             | OpDownload => Some exc
             | _ => s3_fault (s3 w) op bucket name
             end |};
  lockers := lockers w; trace := trace w;
|}.

Definition access_denied : exception :=
  ForeignError "ClientError"
    [("response",
      PyDict [("Error", PyDict [("Code", PyStr "403");
                                ("Message", PyStr "Forbidden")])])].

(** A second class of local storage and one of bucket storage. *)
Definition other_local : JSONLocalStorage.t :=
  JSONLocalStorage.new "ArchiveStorage" None None.
Definition other_remote : S3Storage.t :=
  S3Storage.new "ArchiveStorage" "state" None.

End Sample.

(** ** What a [save] writes *)

Section Written.
Context `{Externals}.

(** The content [JSONLocalStorage.save] leaves in the file it has opened, on
    a device that accepts [quota] characters. *)
Definition written_text (quota : option nat) (key : string) (value : pyobj)
  : string :=
  match pickle_dumps_base64 value with
  | None => ""
  | Some payload =>
      let full := json_dumps (JSONLocalStorage.envelope key payload) in
      match quota with
      | Some n => if (n <? String.length full)%nat then substring 0 n full else full
      | None => full
      end
  end.

End Written.

(** ** More scenarios on the concrete collaborators *)

Module Scenario.
Import (hints) Sample.

Definition other_key : string := "pipeline-2".

(** The payload the codec gives [Sample.state]. *)
Definition payload : string := "7b0a20202020226f6666736574223a2034320a7d".

(** The file of [Sample.key] holds the envelope written for another key. *)
Definition foreign_envelope : World :=
  Sample.with_file Sample.local_path
    (json_dumps (JSONLocalStorage.envelope "somebody-else" payload))
    Sample.empty_world.

(** The file of [Sample.key] holds a JSON object without fields. *)
Definition bare_object : World :=
  Sample.with_file Sample.local_path "{}" Sample.empty_world.

(** An exception whose [Error] is a text, not a mapping. *)
Definition text_error : exception :=
  ForeignError "ClientError"
    [("response", PyDict [("Error", PyStr "Code 500, Message lost")])].

(** A bucket that refuses every deletion with [exc]. *)
Definition with_delete_error (exc : exception) (w : World) : World := {|
  fs := fs w;
  s3 := {| objects := objects (s3 w);
           s3_fault := fun op bucket name =>
             match op with
             | OpDelete => Some exc
             | _ => s3_fault (s3 w) op bucket name
             end |};
  lockers := lockers w; trace := trace w;
|}.


Definition locked_remote : S3Storage.t :=
  S3Storage.new S3Storage.__name__ "state" (Some (Some Sample.list_locker)).

(** A codec whose unpickling rebuilds objects that hold resources: the
    payload [6f70656e] is an object that reopens a file which is gone, the
    payload [6665746368] one that fetches an object the bucket does not
    have.  Every other payload is read as by [Sample.codec_loads]. *)
Definition opening_loads (s : string) : result pyobj :=
  if String.eqb s "6f70656e" then inl FileNotFoundError
  else if String.eqb s "6665746368" then inl ClientError_not_found
  else Sample.codec_loads s.

Definition opening : Externals := {|
  LockerState := list pyobj;
  FileLocker := fun _ => Sample.list_locker;
  get_base64_digest := Sample.hex;
  get_stored_meta := [("version", PyStr "1.0")];
  pickle_dumps_base64 := Sample.codec_dumps;
  pickle_loads_base64 := opening_loads;
  pickle_loads_base64_rejects := fun _ => AttributeError;
  b64encode := Sample.hex;
  json_dumps := Sample.json_print 0;
  json_loads := Sample.json_parse;
|}.

Definition opening_local : @JSONLocalStorage.t opening :=
  @JSONLocalStorage.new opening JSONLocalStorage.__name__ None None.
Definition opening_remote : @S3Storage.t opening :=
  @S3Storage.new opening S3Storage.__name__ "state" None.

(** The envelope whose value reopens a missing file, as [save] writes it. *)
Definition reopening_envelope : string :=
  Sample.json_print 0 (@JSONLocalStorage.envelope opening Sample.key "6f70656e").

(** The file of [Sample.key] holds that envelope; the object of
    [Sample.key] holds the payload that fetches a missing object. *)
Definition reopening_file : @World opening :=
  @Build_World opening
    {| files := {[ Sample.local_path := reopening_envelope ]};
       fs_fault := fun _ _ => None; fs_quota := fun _ => None |}
    {| objects := ∅; s3_fault := fun _ _ _ => None |}
    [] [].


(** A locker context that keeps the handles it has given out, and lets the
    exceptions of the region pass. *)
#[export] Instance releasing : LockerContext := {|
  lk_enter := fun _ key ls => (PyStr key :: ls, inr (PyStr key));
  lk_exit := fun _ _ _ ls => (tail ls, inr false);
|}.

(** A locker context that suppresses the exceptions of the region. *)
Definition suppressing : LockerContext := {|
  lk_enter := fun _ key ls => (PyStr key :: ls, inr (PyStr key));
  lk_exit := fun _ _ _ ls => (tail ls, inr true);
|}.

(** A protected region that fails after loading. *)
Definition failing_region (handle : pyobj) : M pyobj :=
  let* _ := JSONLocalStorage.load Sample.local Sample.key in
  raise OSError.

End Scenario.

(** ** Running the monad *)

Ltac unfold_monad :=
  unfold bind, try_except, ret, raise, lift, log, get, set_files, set_objects,
         set_lockers in *.

Ltac unfold_prims :=
  unfold open_read, open_write, write_close, os_remove, upload_fileobj,
         download_fileobj, delete_object in *.

(** ** Strings *)

#[local] Arguments ascii_dec : simpl never.

Lemma append_length (s t : string) :
  String.length (s ++ t) = (String.length s + String.length t)%nat.
Proof.
  induction s as [|c r IH]; [reflexivity|].
  change (S (String.length (r ++ t)) = S (String.length r + String.length t)).
  rewrite IH. reflexivity.
Qed.

Lemma append_inj_r (s1 s2 t : string) : s1 ++ t = s2 ++ t -> s1 = s2.
Proof.
  revert s2. induction s1 as [|a r1 IH]; intros [|b r2] Heq.
  - reflexivity.
  - apply (f_equal String.length) in Heq.
    change (String.length t = S (String.length (r2 ++ t))) in Heq.
    rewrite append_length in Heq. lia.
  - apply (f_equal String.length) in Heq.
    change (S (String.length (r1 ++ t)) = String.length t) in Heq.
    rewrite append_length in Heq. lia.
  - change (String a (r1 ++ t) = String b (r2 ++ t)) in Heq.
    injection Heq as -> Heq. f_equal. apply IH. exact Heq.
Qed.

Lemma append_inj_l (s t1 t2 : string) : s ++ t1 = s ++ t2 -> t1 = t2.
Proof.
  induction s as [|a r IH]; intros Heq; [exact Heq|].
  change (String a (r ++ t1) = String a (r ++ t2)) in Heq.
  injection Heq as Heq. apply IH. exact Heq.
Qed.

Lemma prefix_slash_append (c rest : string) :
  String.prefix "/" c = false -> String.prefix "/" (c ++ "_" ++ rest) = false.
Proof.
  destruct c as [|a r]; [reflexivity|].
  change (String a r ++ "_" ++ rest) with (String a (r ++ "_" ++ rest)).
  cbn. destruct (ascii_dec "/" a); [|reflexivity].
  destruct r; discriminate.
Qed.

#[local] Arguments Nat.ltb : simpl never.
#[local] Arguments String.eqb : simpl never.
#[local] Arguments String.append : simpl never.

Section Properties.
Context `{Externals}.

(** *** How [load] runs *)

(** A refusal is never the "no such file" that [files] tells. *)
Lemma refusal_found (answer : option os_fault) (e : exception) :
  refusal answer = Some e -> e <> FileNotFoundError.
Proof. destruct answer as [[| | |]|]; cbn; intros [= <-]; discriminate. Qed.

(** The result of the local [load], read off the file system. *)
Lemma local_load_run (self : JSONLocalStorage.t) (key : string) (w : World) :
  snd (JSONLocalStorage.load self key w) =
  match refusal (fs_fault (fs w) OpOpenR
                   (JSONLocalStorage._get_path_by_key self key)) with
  | Some e => inl e
  | None =>
      match files (fs w) !! JSONLocalStorage._get_path_by_key self key with
      | None => inr PyNone
      | Some content =>
          if String.eqb content "" then inr PyNone
          else local_load_handler (JSONLocalStorage.parse_envelope content)
      end
  end.
Proof.
  unfold JSONLocalStorage.load, JSONLocalStorage.load_body.
  unfold_prims. unfold_monad. cbn.
  destruct (refusal (fs_fault (fs w) OpOpenR _)) as [e|] eqn:Hrefused; cbn.
  - apply refusal_found in Hrefused. destruct e; try reflexivity.
    contradiction.
  - destruct (files (fs w) !! _) as [content|]; cbn; [|reflexivity].
    destruct (String.eqb content ""); cbn; [reflexivity|].
    destruct (JSONLocalStorage.parse_envelope content) as [e|v]; cbn;
      [|reflexivity].
    destruct e; reflexivity.
Qed.

(** The result of the S3 [load], read off the bucket. *)
Lemma s3_load_run (self : S3Storage.t) (key : string) (w : World) :
  snd (S3Storage.load self key w) =
  match s3_fault (s3 w) OpDownload (S3Storage.bucket self)
                 (S3Storage._get_path_by_key self key) with
  | Some e => s3_load_handler e
  | None =>
      match objects (s3 w) !! (S3Storage.bucket self,
                               S3Storage._get_path_by_key self key) with
      | None => inr PyNone
      | Some (content, _) =>
          if String.eqb content "" then inr PyNone
          else match pickle_loads content with
               | inl e => s3_load_handler e
               | inr v => inr v
               end
      end
  end.
Proof.
  unfold S3Storage.load, S3Storage.load_body, s3_load_handler.
  unfold_prims. unfold_monad. cbn.
  destruct (s3_fault (s3 w) OpDownload _ _) as [e|]; cbn.
  - destruct (S3Storage._is_not_found_error e) as [t|[|]]; reflexivity.
  - destruct (objects (s3 w) !! _) as [[content meta]|]; cbn; [|reflexivity].
    destruct (String.eqb content ""); cbn; [reflexivity|].
    destruct (pickle_loads content) as [e|v]; cbn; [|reflexivity].
    destruct (S3Storage._is_not_found_error e) as [t|[|]]; reflexivity.
Qed.

(** What a completed [JSONLocalStorage.save] leaves in the file system. *)
Lemma local_save_ok (self : JSONLocalStorage.t) (key : string) (value : pyobj)
    (w w' : World) :
  JSONLocalStorage.save self key value w = (w', inr tt) ->
  exists payload,
    pickle_dumps_base64 value = Some payload /\
    files (fs w') =
      <[JSONLocalStorage._get_path_by_key self key :=
          json_dumps (JSONLocalStorage.envelope key payload)]> (files (fs w)) /\
    fs_fault (fs w') = fs_fault (fs w) /\
    fs_quota (fs w') = fs_quota (fs w) /\
    s3 w' = s3 w.
Proof.
  unfold JSONLocalStorage.save. unfold_prims. unfold_monad. cbn.
  destruct (fs_fault (fs w) OpOpenW _) eqn:Hf; [discriminate|].
  destruct (pickle_dumps_base64 value) as [payload|] eqn:Hd; [|discriminate].
  cbn. intros Hs. exists payload. split; [reflexivity|].
  destruct (fs_quota (fs w) _) as [n|] eqn:Hq.
  - destruct (n <? _)%nat; [discriminate|].
    injection Hs as <-. cbn. rewrite insert_insert_eq. auto.
  - injection Hs as <-. cbn. rewrite insert_insert_eq. auto.
Qed.

(** What a completed [S3Storage.save] leaves in the bucket. *)
Lemma s3_save_ok (self : S3Storage.t) (key : string) (value : pyobj)
    (w w' : World) :
  S3Storage.save self key value w = (w', inr tt) ->
  exists payload,
    pickle_dumps_base64 value = Some payload /\
    objects (s3 w') =
      <[(S3Storage.bucket self, S3Storage._get_path_by_key self key) :=
          (payload, S3Storage.metadata key)]> (objects (s3 w)) /\
    s3_fault (s3 w') = s3_fault (s3 w) /\
    fs w' = fs w.
Proof.
  unfold S3Storage.save. unfold_prims. unfold_monad. cbn.
  destruct (pickle_dumps_base64 value) as [payload|] eqn:Hd; [|discriminate].
  destruct (s3_fault (s3 w) OpUpload _ _) eqn:Hf; [discriminate|].
  intros Hs. injection Hs as <-. exists payload. cbn. auto.
Qed.

Lemma eqb_empty_false (s : string) : s <> "" -> String.eqb s "" = false.
Proof. intros Hs. apply String.eqb_neq. exact Hs. Qed.

Lemma envelope_value (key payload : string) :
  getitem (JSONLocalStorage.envelope key payload) "value" = inr (PyStr payload).
Proof. reflexivity. Qed.

(** C1. Round trip: on both backends, when [save key value] has completed and
    the codec is lossless on [value], a [load key] on the same instance
    returns [value]. *)
Theorem save_load_round_trip (key : string) (value : pyobj) (payload : string) :
  pickle_dumps_base64 value = Some payload ->
  payload <> "" ->
  pickle_loads_base64 payload = inr value ->
  json_dumps (JSONLocalStorage.envelope key payload) <> "" ->
  json_loads (json_dumps (JSONLocalStorage.envelope key payload))
    = Some (JSONLocalStorage.envelope key payload) ->
  (forall (self : JSONLocalStorage.t) (w : World),
      let after := JSONLocalStorage.save self key value w in
      snd after = inr tt ->
      fs_fault (fs (fst after)) OpOpenR
               (JSONLocalStorage._get_path_by_key self key) = None ->
      snd (JSONLocalStorage.load self key (fst after)) = inr value) /\
  (forall (self : S3Storage.t) (w : World),
      let after := S3Storage.save self key value w in
      snd after = inr tt ->
      s3_fault (s3 (fst after)) OpDownload (S3Storage.bucket self)
               (S3Storage._get_path_by_key self key) = None ->
      snd (S3Storage.load self key (fst after)) = inr value).
Proof.
  intros Hdumps Hne Hloads Htext Hjson. split.
  - intros self w after Hok Hfault. subst after.
    destruct (JSONLocalStorage.save self key value w) as [w' r] eqn:Hsave.
    cbn in Hok, Hfault |- *. subst r.
    destruct (local_save_ok _ _ _ _ _ Hsave) as (p & Hp & Hfiles & _).
    rewrite Hdumps in Hp. injection Hp as <-.
    rewrite local_load_run, Hfault, Hfiles, lookup_insert_eq.
    cbn [refusal]. rewrite (eqb_empty_false _ Htext).
    unfold JSONLocalStorage.parse_envelope.
    rewrite Hjson, envelope_value. cbn. unfold pickle_loads.
    rewrite Hloads. reflexivity.
  - intros self w after Hok Hfault. subst after.
    destruct (S3Storage.save self key value w) as [w' r] eqn:Hsave.
    cbn in Hok, Hfault |- *. subst r.
    destruct (s3_save_ok _ _ _ _ _ Hsave) as (p & Hp & Hobjs & _).
    rewrite Hdumps in Hp. injection Hp as <-.
    rewrite s3_load_run, Hfault, Hobjs, lookup_insert_eq.
    rewrite (eqb_empty_false _ Hne). unfold pickle_loads.
    rewrite Hloads. reflexivity.
Qed.

(** *** Recognizing not-found *)

Lemma eq_str_true (o : pyobj) (s : string) :
  S3Storage.eq_str o s = true <-> o = PyStr s.
Proof.
  destruct o; cbn; try (split; [discriminate|intros [=]]).
  rewrite String.eqb_eq. split; [intros ->; reflexivity|intros [= ->]; reflexivity].
Qed.

Lemma is_not_found_dict (info : list (string * pyobj)) :
  let error_info := PyDict info in
  rbind (S3Storage.and_then (inr (truthy error_info))
           (S3Storage.and_then (S3Storage.contains "Code" error_info)
                               (S3Storage.contains "Message" error_info)))
    (fun cond =>
       if cond then
         S3Storage.and_then
           (rbind (getitem error_info "Code")
                  (fun c => inr (S3Storage.eq_str c "404")))
           (rbind (getitem error_info "Message")
                  (fun m => inr (S3Storage.eq_str m "Not Found")))
       else inr false) = inr true <->
  dict_get info "Code" = Some (PyStr "404") /\
  dict_get info "Message" = Some (PyStr "Not Found").
Proof.
  cbn. unfold S3Storage.and_then, S3Storage.contains, getitem, rbind.
  destruct info as [|kv info']; [cbn; split; [discriminate|intros [[=] _]]|].
  set (info := kv :: info'). cbn [truthy].
  destruct (dict_get info "Code") as [c|] eqn:Hc;
    [rewrite bool_decide_eq_true_2 by eauto
    |rewrite bool_decide_eq_false_2 by (intros [? [=]]);
     split; [discriminate|intros [[=] _]]].
  destruct (dict_get info "Message") as [m|] eqn:Hm;
    [rewrite bool_decide_eq_true_2 by eauto
    |rewrite bool_decide_eq_false_2 by (intros [? [=]]);
     split; [discriminate|intros [_ [=]]]].
  destruct (S3Storage.eq_str c "404") eqn:Ec.
  - apply eq_str_true in Ec as ->. split.
    + intros [= Em]. apply eq_str_true in Em as ->. auto.
    + intros [_ [= ->]]. reflexivity.
  - split; [discriminate|]. intros [[= ->] _]. discriminate.
Qed.

(** [_is_not_found_error] answers [True] exactly on the structured shape. *)
Lemma is_not_found_iff (exc : exception) :
  S3Storage._is_not_found_error exc = inr true <-> not_found_shape exc.
Proof.
  unfold S3Storage._is_not_found_error, not_found_shape.
  destruct (getattr_or_none exc "response") as [|n|s|items|f];
    try (split; [discriminate|intros (? & ? & [=] & _)]).
  destruct (dict_get items "Error") as [error_info|] eqn:He; cbn [default].
  - destruct error_info as [|n|s|info|f].
    + split; [discriminate|]. intros (? & ? & [= <-] & Hi & _).
      rewrite He in Hi. discriminate.
    + split.
      * cbn. destruct (negb (n =? 0)%Z); discriminate.
      * intros (? & ? & [= <-] & Hi & _). rewrite He in Hi. discriminate.
    + split.
      * unfold S3Storage.and_then, S3Storage.contains, getitem, rbind.
        cbn. repeat case_match; discriminate.
      * intros (? & ? & [= <-] & Hi & _). rewrite He in Hi. discriminate.
    + split.
      * intros Hx. apply (proj1 (is_not_found_dict info)) in Hx.
        destruct Hx as [Hc Hm]. exists items, info. auto.
      * intros (? & ? & [= <-] & Hi & Hc & Hm).
        rewrite He in Hi. injection Hi as <-.
        apply (proj2 (is_not_found_dict info)). auto.
    + split; [discriminate|].
      intros (? & ? & [= <-] & Hi & _). rewrite He in Hi. discriminate.
  - split; [discriminate|]. intros (? & ? & [= <-] & Hi & _).
    rewrite He in Hi. discriminate.
Qed.

(** *** What the read reports, and what [load] makes of it *)

Lemma open_read_run (path : string) (w : World) :
  snd (open_read path w) =
  match refusal (fs_fault (fs w) OpOpenR path) with
  | Some e => inl e
  | None =>
      match files (fs w) !! path with
      | None => inl FileNotFoundError
      | Some content => inr content
      end
  end.
Proof.
  unfold open_read. unfold_monad. cbn.
  destruct (refusal (fs_fault (fs w) OpOpenR path)); [reflexivity|].
  destruct (files (fs w) !! path); reflexivity.
Qed.

Lemma download_run (bucket name : string) (w : World) :
  snd (download_fileobj bucket name w) =
  match s3_fault (s3 w) OpDownload bucket name with
  | Some e => inl e
  | None =>
      match objects (s3 w) !! (bucket, name) with
      | None => inl ClientError_not_found
      | Some (content, _) => inr content
      end
  end.
Proof.
  unfold download_fileobj. unfold_monad. cbn.
  destruct (s3_fault (s3 w) OpDownload bucket name); [reflexivity|].
  destruct (objects (s3 w) !! (bucket, name)) as [[? ?]|]; reflexivity.
Qed.

Lemma local_load_of_read (self : JSONLocalStorage.t) (key : string) (w : World) :
  snd (JSONLocalStorage.load self key w) =
  match snd (open_read (JSONLocalStorage._get_path_by_key self key) w) with
  | inl FileNotFoundError => inr PyNone
  | inl e => inl e
  | inr content =>
      if String.eqb content "" then inr PyNone
      else local_load_handler (JSONLocalStorage.parse_envelope content)
  end.
Proof.
  rewrite local_load_run, open_read_run.
  destruct (refusal (fs_fault (fs w) OpOpenR _)) as [e|] eqn:Hrefused.
  - apply refusal_found in Hrefused. destruct e; try reflexivity.
    contradiction.
  - destruct (files (fs w) !! _); reflexivity.
Qed.

Lemma s3_load_of_download (self : S3Storage.t) (key : string) (w : World) :
  snd (S3Storage.load self key w) =
  match snd (download_fileobj (S3Storage.bucket self)
               (S3Storage._get_path_by_key self key) w) with
  | inl e => s3_load_handler e
  | inr content =>
      if String.eqb content "" then inr PyNone
      else match pickle_loads content with
           | inl e => s3_load_handler e
           | inr v => inr v
           end
  end.
Proof.
  rewrite s3_load_run, download_run.
  destruct (s3_fault (s3 w) OpDownload _ _) as [e|]; [reflexivity|].
  destruct (objects (s3 w) !! _) as [[? ?]|]; reflexivity.
Qed.

(** What the S3 handler does, by the shape of the exception. *)
Lemma s3_load_handler_cases (e : exception) :
  (not_found_shape e -> s3_load_handler e = inr PyNone) /\
  (~ not_found_shape e -> exists e', s3_load_handler e = inl e') /\
  (S3Storage._is_not_found_error e = inr false -> s3_load_handler e = inl e) /\
  (s3_load_handler e = inr PyNone -> not_found_shape e).
Proof.
  unfold s3_load_handler. split; [|split; [|split]].
  - intros Hshape. apply is_not_found_iff in Hshape. rewrite Hshape.
    reflexivity.
  - intros Hshape.
    destruct (S3Storage._is_not_found_error e) as [t|[|]] eqn:Hnf; eauto.
    apply is_not_found_iff in Hnf. contradiction.
  - intros ->. reflexivity.
  - destruct (S3Storage._is_not_found_error e) as [t|[|]] eqn:Hnf;
      try discriminate.
    intros _. apply is_not_found_iff. exact Hnf.
Qed.

(** C10. On both backends a stored entity whose content is empty makes
    [load] return [None], not raise. *)
Theorem load_empty_content_is_absent (local : JSONLocalStorage.t)
    (remote : S3Storage.t) (key : string) (w : World) :
  (snd (open_read (JSONLocalStorage._get_path_by_key local key) w) = inr "" ->
   snd (JSONLocalStorage.load local key w) = inr PyNone) /\
  (snd (download_fileobj (S3Storage.bucket remote)
          (S3Storage._get_path_by_key remote key) w) = inr "" ->
   snd (S3Storage.load remote key w) = inr PyNone).
Proof.
  split; intros Hread.
  - rewrite local_load_of_read, Hread. reflexivity.
  - rewrite s3_load_of_download, Hread. reflexivity.
Qed.


(** C4, amended. [load] returns [None] when the backend reports not-found
    (no file at the derived path; an exception of the not-found shape), and
    also when the content is empty, when it deserializes to [None], and when
    the deserialization itself raises an error of that not-found kind; in
    every other case in which an error is raised, [load] raises. *)
Theorem load_absent_or_raise (local : JSONLocalStorage.t)
    (remote : S3Storage.t) (key : string) (w : World) :
  let path := JSONLocalStorage._get_path_by_key local key in
  let name := S3Storage._get_path_by_key remote key in
  let bucket := S3Storage.bucket remote in
  let read := snd (open_read path w) in
  let download := snd (download_fileobj bucket name w) in
  let loaded := snd (JSONLocalStorage.load local key w) in
  let loaded3 := snd (S3Storage.load remote key w) in
  ((read = inl FileNotFoundError <->
    refusal (fs_fault (fs w) OpOpenR path) = None /\
    files (fs w) !! path = None) /\
   (read = inl FileNotFoundError -> loaded = inr PyNone) /\
   (forall e, read = inl e -> e <> FileNotFoundError -> loaded = inl e) /\
   (forall content, read = inr content ->
    loaded =
      if String.eqb content "" then inr PyNone
      else local_load_handler (JSONLocalStorage.parse_envelope content)) /\
   (loaded = inr PyNone <->
    read = inl FileNotFoundError \/ read = inr "" \/
    exists content, read = inr content /\ content <> "" /\
      (JSONLocalStorage.parse_envelope content = inr PyNone \/
       JSONLocalStorage.parse_envelope content = inl FileNotFoundError))) /\
  ((s3_fault (s3 w) OpDownload bucket name = None ->
    objects (s3 w) !! (bucket, name) = None ->
    loaded3 = inr PyNone) /\
   (forall e, download = inl e -> not_found_shape e -> loaded3 = inr PyNone) /\
   (forall e, download = inl e -> ~ not_found_shape e ->
    exists e', loaded3 = inl e') /\
   (forall e, download = inl e ->
    S3Storage._is_not_found_error e = inr false -> loaded3 = inl e) /\
   (forall content, download = inr content ->
    loaded3 =
      if String.eqb content "" then inr PyNone
      else match pickle_loads content with
           | inl e => s3_load_handler e
           | inr v => inr v
           end) /\
   (loaded3 = inr PyNone <->
    (exists e, download = inl e /\ not_found_shape e) \/ download = inr "" \/
    exists content, download = inr content /\ content <> "" /\
      (pickle_loads content = inr PyNone \/
       exists e, pickle_loads content = inl e /\ not_found_shape e))).
Proof.
  intros path name bucket read download loaded loaded3.
  subst read download loaded loaded3. split.
  - rewrite local_load_of_read. fold path.
    split; [|split; [|split; [|split]]].
    + rewrite open_read_run. split.
      * destruct (refusal (fs_fault (fs w) OpOpenR path)) as [e|] eqn:Hrefused.
        -- intros [= ->]. apply refusal_found in Hrefused. contradiction.
        -- destruct (files (fs w) !! path); [discriminate|auto].
      * intros [-> ->]. reflexivity.
    + intros ->. reflexivity.
    + intros e -> He. destruct e; try reflexivity. contradiction.
    + intros content ->. reflexivity.
    + destruct (snd (open_read path w)) as [e|content]; split.
      * destruct e; try discriminate. auto.
      * intros [[= ->]|[[=]|(? & [=] & _)]]. reflexivity.
      * destruct (String.eqb_spec content "") as [->|Hne]; [auto|].
        intros Hnone. right. right. exists content.
        split; [reflexivity|]. split; [exact Hne|].
        destruct (JSONLocalStorage.parse_envelope content) as [e|v];
          [destruct e; try discriminate; auto|].
        injection Hnone as ->. auto.
      * intros [[=]|[[= ->]|(c & [= <-] & Hne & Hparse)]]; [reflexivity|].
        apply eqb_empty_false in Hne. rewrite Hne.
        destruct Hparse as [-> | ->]; reflexivity.
  - rewrite s3_load_of_download. fold name bucket.
    split; [|split; [|split; [|split; [|split]]]].
    + intros Hf Hm. rewrite download_run, Hf, Hm. reflexivity.
    + intros e -> Hshape. apply s3_load_handler_cases. exact Hshape.
    + intros e -> Hshape. apply s3_load_handler_cases. exact Hshape.
    + intros e -> Hnf. apply s3_load_handler_cases. exact Hnf.
    + intros content ->. reflexivity.
    + destruct (snd (download_fileobj bucket name w)) as [e|content]; split.
      * intros Hnone. left. exists e. split; [reflexivity|].
        apply s3_load_handler_cases. exact Hnone.
      * intros [(e' & [= <-] & Hshape)|[[=]|(? & [=] & _)]].
        apply s3_load_handler_cases. exact Hshape.
      * destruct (String.eqb_spec content "") as [->|Hne]; [auto|].
        intros Hnone. right. right. exists content.
        split; [reflexivity|]. split; [exact Hne|].
        destruct (pickle_loads content) as [e|v].
        -- right. exists e. split; [reflexivity|].
           apply s3_load_handler_cases. exact Hnone.
        -- injection Hnone as ->. auto.
      * intros [(e' & [=] & _)|[[= ->]|(c & [= <-] & Hne & Hparse)]];
          [reflexivity|].
        apply eqb_empty_false in Hne. rewrite Hne.
        destruct Hparse as [-> | (e & -> & Hshape)]; [reflexivity|].
        apply s3_load_handler_cases. exact Hshape.
Qed.

(** *** [save] *)

Lemma prefix_substring (n : nat) (s : string) :
  String.prefix (substring 0 n s) s = true.
Proof.
  revert n. induction s as [|c r IH]; intros [|n]; cbn; try reflexivity.
  destruct (ascii_dec c c); [apply IH|contradiction].
Qed.

Lemma prefix_refl (s : string) : String.prefix s s = true.
Proof.
  induction s as [|c r IH]; cbn; [reflexivity|].
  destruct (ascii_dec c c); [exact IH|contradiction].
Qed.

(** C2, amended. [JSONLocalStorage.save] truncates the file at the derived
    path and writes the envelope in place: once the file is open, it holds a
    prefix of the new envelope, which is the whole envelope when [save]
    completes and is empty when the value cannot be pickled; the prior
    content is not kept.  [S3Storage.save] is one upload: it stores the whole
    payload or leaves the bucket as it was. *)
Theorem save_overwrites_in_place (local : JSONLocalStorage.t)
    (remote : S3Storage.t) (key : string) (value : pyobj) (w : World) :
  let path := JSONLocalStorage._get_path_by_key local key in
  let after := JSONLocalStorage.save local key value w in
  let after3 := S3Storage.save remote key value w in
  (fs_fault (fs w) OpOpenW path = None ->
   exists text,
     files (fs (fst after)) = <[path := text]> (files (fs w)) /\
     (pickle_dumps_base64 value = None ->
      text = "" /\ snd after = inl PicklingError) /\
     (forall payload, pickle_dumps_base64 value = Some payload ->
      String.prefix text (json_dumps (JSONLocalStorage.envelope key payload))
        = true /\
      (snd after = inr tt ->
       text = json_dumps (JSONLocalStorage.envelope key payload)))) /\
  (forall e, snd after3 = inl e -> objects (s3 (fst after3)) = objects (s3 w)) /\
  (snd after3 = inr tt ->
   exists payload,
     pickle_dumps_base64 value = Some payload /\
     objects (s3 (fst after3)) =
       <[(S3Storage.bucket remote, S3Storage._get_path_by_key remote key) :=
           (payload, S3Storage.metadata key)]> (objects (s3 w))).
Proof.
  intros path after after3. split; [|split].
  - intros Hopen. subst after. unfold JSONLocalStorage.save.
    fold path. unfold_prims. unfold_monad. cbn. rewrite Hopen.
    destruct (pickle_dumps_base64 value) as [payload|] eqn:Hd; cbn.
    + set (full := json_dumps (JSONLocalStorage.envelope key payload)).
      destruct (fs_quota (fs w) path) as [n|].
      * destruct (n <? String.length full)%nat; cbn.
        -- exists (substring 0 n full). rewrite insert_insert_eq.
           split; [reflexivity|]. split; [discriminate|].
           intros ? [= <-]. split; [apply prefix_substring|discriminate].
        -- exists full. rewrite insert_insert_eq.
           split; [reflexivity|]. split; [discriminate|].
           intros ? [= <-]. split; [apply prefix_refl|reflexivity].
      * cbn. exists full. rewrite insert_insert_eq.
        split; [reflexivity|]. split; [discriminate|].
        intros ? [= <-]. split; [apply prefix_refl|reflexivity].
    + exists "". split; [reflexivity|]. split; [auto|discriminate].
  - intros e. subst after3. unfold S3Storage.save.
    unfold_prims. unfold_monad. cbn.
    destruct (pickle_dumps_base64 value); [|reflexivity].
    destruct (s3_fault (s3 w) OpUpload _ _); [reflexivity|discriminate].
  - intros Hok. destruct after3 as [w' r] eqn:Hs. cbn in Hok. subst r.
    destruct (s3_save_ok _ _ _ _ _ Hs) as (payload & Hd & Ho & _).
    exists payload. auto.
Qed.

(** *** [cleanup] *)

(** C5, amended. [S3Storage.cleanup] suppresses every error of the deletion
    and goes on to the locker.  [JSONLocalStorage.cleanup] does so when the
    file is removed or does not exist; any other error of [os.remove] is
    raised by [cleanup], which then does not reach the locker. *)
Theorem cleanup_deletion_errors (local : JSONLocalStorage.t)
    (remote : S3Storage.t) (key : string) (lock : pyobj) (w : World) :
  let path := JSONLocalStorage._get_path_by_key local key in
  let name := S3Storage._get_path_by_key remote key in
  S3Storage.cleanup remote key lock w =
    BaseExternalLockerStorage.cleanup (S3Storage.locker remote) key lock
      (fst (delete_object (S3Storage.bucket remote) name w)) /\
  (snd (os_remove path w) = inr tt \/
   snd (os_remove path w) = inl FileNotFoundError ->
   JSONLocalStorage.cleanup local key lock w =
     BaseExternalLockerStorage.cleanup (JSONLocalStorage.locker local) key lock
       (fst (os_remove path w))) /\
  (forall e, snd (os_remove path w) = inl e -> e <> FileNotFoundError ->
   JSONLocalStorage.cleanup local key lock w = (fst (os_remove path w), inl e)).
Proof.
  intros path name. split; [|split].
  - unfold S3Storage.cleanup, S3Storage.delete_envelope. fold name.
    unfold bind at 1. unfold try_except.
    destruct (delete_object _ name w) as [w' [e|[]]]; reflexivity.
  - unfold JSONLocalStorage.cleanup, JSONLocalStorage.remove_envelope.
    fold path. unfold bind at 1. unfold try_except.
    destruct (os_remove path w) as [w' [e|[]]]; cbn.
    + intros [[=]|[= ->]]. reflexivity.
    + reflexivity.
  - intros e. unfold JSONLocalStorage.cleanup, JSONLocalStorage.remove_envelope.
    fold path. unfold bind at 1. unfold try_except.
    destruct (os_remove path w) as [w' [e'|[]]]; cbn; [|discriminate].
    intros [= ->] Hne. destruct e; try reflexivity. contradiction.
Qed.

(** How the two [cleanup] run, step by step. *)
Lemma local_cleanup_run (self : JSONLocalStorage.t) (key : string)
    (lock : pyobj) (w : World) :
  JSONLocalStorage.cleanup self key lock w =
  match os_remove (JSONLocalStorage._get_path_by_key self key) w with
  | (w', inr _) | (w', inl FileNotFoundError) =>
      BaseExternalLockerStorage.cleanup (JSONLocalStorage.locker self) key lock w'
  | (w', inl e) => (w', inl e)
  end.
Proof.
  unfold JSONLocalStorage.cleanup, JSONLocalStorage.remove_envelope.
  unfold bind at 1. unfold try_except.
  destruct (os_remove _ w) as [w' [e|[]]]; [destruct e|]; reflexivity.
Qed.

Lemma s3_cleanup_run (self : S3Storage.t) (key : string)
    (lock : pyobj) (w : World) :
  S3Storage.cleanup self key lock w =
  BaseExternalLockerStorage.cleanup (S3Storage.locker self) key lock
    (fst (delete_object (S3Storage.bucket self)
            (S3Storage._get_path_by_key self key) w)).
Proof.
  unfold S3Storage.cleanup, S3Storage.delete_envelope.
  unfold bind at 1. unfold try_except.
  destruct (delete_object _ _ w) as [w' [e|[]]]; reflexivity.
Qed.

(** [os.remove] is logged first; it leaves no file at [path] unless the
    system refuses. *)
Lemma os_remove_run (path : string) (w : World) :
  trace (fst (os_remove path w)) = (trace w ++ [EvRemove path])%list /\
  lockers (fst (os_remove path w)) = lockers w /\
  s3 (fst (os_remove path w)) = s3 w /\
  fs_fault (fs (fst (os_remove path w))) = fs_fault (fs w) /\
  fs_quota (fs (fst (os_remove path w))) = fs_quota (fs w) /\
  match snd (os_remove path w) with
  | inr _ =>
      refusal (fs_fault (fs w) OpRemove path) = None /\
      is_Some (files (fs w) !! path) /\
      files (fs (fst (os_remove path w))) = delete path (files (fs w))
  | inl e =>
      files (fs (fst (os_remove path w))) = files (fs w) /\
      match refusal (fs_fault (fs w) OpRemove path) with
      | Some e' => e = e'
      | None => e = FileNotFoundError /\ files (fs w) !! path = None
      end
  end.
Proof.
  unfold os_remove. unfold_monad. cbn.
  destruct (refusal (fs_fault (fs w) OpRemove path)) as [e|]; cbn; [auto 10|].
  destruct (files (fs w) !! path) eqn:Hp; cbn; auto 10.
Qed.

Lemma delete_object_run (bucket name : string) (w : World) :
  trace (fst (delete_object bucket name w)) = (trace w ++ [EvDelete bucket name])%list /\
  lockers (fst (delete_object bucket name w)) = lockers w /\
  fs (fst (delete_object bucket name w)) = fs w /\
  s3_fault (s3 (fst (delete_object bucket name w))) = s3_fault (s3 w) /\
  (objects (s3 w) !! (bucket, name) = None ->
   objects (s3 (fst (delete_object bucket name w))) = objects (s3 w)).
Proof.
  unfold delete_object. unfold_monad. cbn.
  destruct (s3_fault (s3 w) OpDelete bucket name); cbn;
    repeat split; auto; intros Hm; apply delete_id; exact Hm.
Qed.

Lemma locker_cleanup_run (locker : option (BaseLocker LockerState))
    (key : string) (lock : pyobj) (w : World) :
  let after := BaseExternalLockerStorage.cleanup locker key lock w in
  trace (fst after) = (trace w ++ release_events locker lock)%list /\
  fs (fst after) = fs w /\
  s3 (fst after) = s3 w /\
  snd after =
    match locker with
    | Some l =>
        if lk_bool l then
          match snd (lk_cleanup l lock (lockers w)) with
          | Some e => inl e
          | None => inr tt
          end
        else inr tt
    | None => inr tt
    end.
Proof.
  unfold BaseExternalLockerStorage.cleanup, release_events. unfold_monad.
  destruct locker as [l|]; cbn; [|rewrite app_nil_r; auto].
  destruct (lk_bool l); cbn; [|rewrite app_nil_r; auto].
  destruct (lk_cleanup l lock (lockers w)) as [ls [e|]]; cbn; auto.
Qed.

(** What the clean-up of the locker does to the locker's own state. *)
Lemma locker_cleanup_lockers (locker : option (BaseLocker LockerState))
    (key : string) (lock : pyobj) (w : World) :
  lockers (fst (BaseExternalLockerStorage.cleanup locker key lock w)) =
  released locker lock (lockers w).
Proof.
  unfold BaseExternalLockerStorage.cleanup, released. unfold_monad.
  destruct locker as [l|]; cbn; [|reflexivity].
  destruct (lk_bool l); cbn; [|reflexivity].
  destruct (lk_cleanup l lock (lockers w)) as [ls [e|]]; reflexivity.
Qed.

(** The local [cleanup], by what [os.remove] answers. *)
Lemma local_cleanup_steps (self : JSONLocalStorage.t) (key : string)
    (lock : pyobj) (w : World) :
  let path := JSONLocalStorage._get_path_by_key self key in
  let after := fst (JSONLocalStorage.cleanup self key lock w) in
  (snd (os_remove path w) = inr tt \/
   snd (os_remove path w) = inl FileNotFoundError ->
   trace after =
     (trace w ++ EvRemove path ::
        release_events (JSONLocalStorage.locker self) lock)%list /\
   lockers after = released (JSONLocalStorage.locker self) lock (lockers w) /\
   files (fs after) !! path = None /\
   snd (JSONLocalStorage.cleanup self key lock w) =
     release_outcome (JSONLocalStorage.locker self) lock (lockers w)) /\
  (forall e, snd (os_remove path w) = inl e -> e <> FileNotFoundError ->
   trace after = (trace w ++ [EvRemove path])%list /\
   lockers after = lockers w /\
   snd (JSONLocalStorage.cleanup self key lock w) = inl e).
Proof.
  intros path after. subst after. rewrite local_cleanup_run. fold path.
  destruct (os_remove_run path w) as (Ht & Hl & _ & _ & _ & Hr).
  destruct (os_remove path w) as [w' r]. cbn in Ht, Hl, Hr. cbn [snd].
  assert (Hgo : files (fs w') !! path = None ->
    let after :=
      BaseExternalLockerStorage.cleanup (JSONLocalStorage.locker self)
        key lock w' in
    trace (fst after) =
      (trace w ++ EvRemove path ::
         release_events (JSONLocalStorage.locker self) lock)%list /\
    lockers (fst after)
      = released (JSONLocalStorage.locker self) lock (lockers w) /\
    files (fs (fst after)) !! path = None /\
    snd after = release_outcome (JSONLocalStorage.locker self) lock (lockers w)).
  { intros Hgone after.
    destruct (locker_cleanup_run (JSONLocalStorage.locker self) key lock w')
      as (Ht' & Hfs & _ & Hsnd).
    subst after. rewrite Ht', Ht, <- app_assoc, Hfs, locker_cleanup_lockers, Hl.
    split; [reflexivity|]. split; [reflexivity|]. split; [exact Hgone|].
    rewrite Hsnd, Hl. reflexivity. }
  split.
  - intros [-> | ->].
    + apply Hgo. destruct Hr as (_ & _ & ->). apply lookup_delete_eq.
    + apply Hgo. destruct Hr as [-> Hr].
      destruct (refusal (fs_fault (fs w) OpRemove path)) as [e|] eqn:Hrefused.
      * apply refusal_found in Hrefused. congruence.
      * apply Hr.
  - intros e -> Hne. destruct e; try (cbn; auto); contradiction.
Qed.

(** The S3 [cleanup]: the deletion, then the locker, whatever the deletion
    answers. *)
Lemma s3_cleanup_steps (self : S3Storage.t) (key : string)
    (lock : pyobj) (w : World) :
  let after := fst (S3Storage.cleanup self key lock w) in
  trace after =
    (trace w ++ EvDelete (S3Storage.bucket self)
                  (S3Storage._get_path_by_key self key) ::
       release_events (S3Storage.locker self) lock)%list /\
  lockers after = released (S3Storage.locker self) lock (lockers w) /\
  snd (S3Storage.cleanup self key lock w) =
    release_outcome (S3Storage.locker self) lock (lockers w).
Proof.
  intros after. subst after. rewrite s3_cleanup_run.
  destruct (delete_object_run (S3Storage.bucket self)
              (S3Storage._get_path_by_key self key) w) as (Ht & Hl & _).
  destruct (locker_cleanup_run (S3Storage.locker self) key lock
              (fst (delete_object (S3Storage.bucket self)
                      (S3Storage._get_path_by_key self key) w)))
    as (Ht' & _ & _ & Hsnd).
  rewrite Ht', Ht, <- app_assoc, locker_cleanup_lockers, Hl, Hsnd, Hl.
  auto.
Qed.

(** C6. In [cleanup], on both backends, the deletion of the envelope comes
    first and the clean-up of the configured locker after it.  With a locker
    that is set and truthy, the trace of a [cleanup] whose deletion went
    through (or found no file) is the deletion followed by the locker's
    clean-up of the handle, the locker's state is the one its [cleanup]
    leaves, and on the local backend the file is gone.  Without a locker, or
    with a falsy one, the deletion is the only call and the locker's state
    is untouched.  A local deletion that raises another error stops
    [cleanup] before the locker. *)
Theorem cleanup_deletes_before_release (local : JSONLocalStorage.t)
    (remote : S3Storage.t) (key : string) (lock : pyobj) (w : World) :
  let path := JSONLocalStorage._get_path_by_key local key in
  let name := S3Storage._get_path_by_key remote key in
  let bucket := S3Storage.bucket remote in
  let removal := snd (os_remove path w) in
  let after := fst (JSONLocalStorage.cleanup local key lock w) in
  let after3 := fst (S3Storage.cleanup remote key lock w) in
  (forall l, JSONLocalStorage.locker local = Some l -> lk_bool l = true ->
   removal = inr tt \/ removal = inl FileNotFoundError ->
   trace after = (trace w ++ [EvRemove path; EvLockerCleanup lock])%list /\
   lockers after = fst (lk_cleanup l lock (lockers w)) /\
   files (fs after) !! path = None) /\
  (JSONLocalStorage.locker local = None \/
   (exists l, JSONLocalStorage.locker local = Some l /\ lk_bool l = false) ->
   trace after = (trace w ++ [EvRemove path])%list /\
   lockers after = lockers w) /\
  (forall e, removal = inl e -> e <> FileNotFoundError ->
   trace after = (trace w ++ [EvRemove path])%list /\
   lockers after = lockers w) /\
  (forall l, S3Storage.locker remote = Some l -> lk_bool l = true ->
   trace after3 =
     (trace w ++ [EvDelete bucket name; EvLockerCleanup lock])%list /\
   lockers after3 = fst (lk_cleanup l lock (lockers w))) /\
  (S3Storage.locker remote = None \/
   (exists l, S3Storage.locker remote = Some l /\ lk_bool l = false) ->
   trace after3 = (trace w ++ [EvDelete bucket name])%list /\
   lockers after3 = lockers w).
Proof.
  intros path name bucket removal after after3.
  destruct (local_cleanup_steps local key lock w) as [Hgo Hstop].
  destruct (s3_cleanup_steps remote key lock w) as (Ht3 & Hl3 & _).
  fold path in Hgo, Hstop. fold removal in Hgo, Hstop. fold after in Hgo, Hstop.
  fold name bucket in Ht3. fold after3 in Ht3, Hl3.
  split; [|split; [|split; [|split]]].
  - intros l Hlocker Htruthy Hremoved.
    destruct (Hgo Hremoved) as (Ht & Hl & Hgone & _).
    rewrite Ht, Hl, Hlocker. unfold release_events, released.
    rewrite Htruthy. auto.
  - intros Hnone.
    assert (Hquiet : release_events (JSONLocalStorage.locker local) lock = [] /\
                     released (JSONLocalStorage.locker local) lock (lockers w)
                       = lockers w).
    { unfold release_events, released.
      destruct Hnone as [-> | (l & -> & ->)]; auto. }
    destruct Hquiet as [Hevents Hstate].
    destruct removal as [e|[]] eqn:Hremoval.
    + assert (Hcases : e = FileNotFoundError \/ e <> FileNotFoundError).
      { destruct e; (left; reflexivity) || (right; discriminate). }
      destruct Hcases as [-> | Hne].
      * destruct Hgo as (Ht & Hl & _); [auto|].
        rewrite Ht, Hl, Hevents, Hstate. auto.
      * destruct (Hstop e eq_refl Hne) as (Ht & Hl & _). auto.
    + destruct Hgo as (Ht & Hl & _); [auto|].
      rewrite Ht, Hl, Hevents, Hstate. auto.
  - intros e Hremoval Hne. destruct (Hstop e Hremoval Hne) as (Ht & Hl & _).
    auto.
  - intros l Hlocker Htruthy. rewrite Ht3, Hl3, Hlocker.
    unfold release_events, released. rewrite Htruthy. auto.
  - intros Hnone. rewrite Ht3, Hl3. unfold release_events, released.
    destruct Hnone as [-> | (l & -> & ->)]; auto.
Qed.



(** A local [cleanup] that returned left no file and met no refusal. *)
Lemma local_cleanup_ok (self : JSONLocalStorage.t) (key : string)
    (lock : pyobj) (w w1 : World) :
  JSONLocalStorage.cleanup self key lock w = (w1, inr tt) ->
  refusal (fs_fault (fs w1) OpRemove (JSONLocalStorage._get_path_by_key self key))
    = None /\
  files (fs w1) !! JSONLocalStorage._get_path_by_key self key = None.
Proof.
  rewrite local_cleanup_run.
  set (path := JSONLocalStorage._get_path_by_key self key).
  destruct (os_remove_run path w) as (_ & _ & _ & Hfault & _ & Hr).
  destruct (os_remove path w) as [w' r]. cbn in Hfault, Hr.
  assert (Hgo : refusal (fs_fault (fs w) OpRemove path) = None ->
                files (fs w') !! path = None ->
                BaseExternalLockerStorage.cleanup
                  (JSONLocalStorage.locker self) key lock w' = (w1, inr tt) ->
                refusal (fs_fault (fs w1) OpRemove path) = None /\
                files (fs w1) !! path = None).
  { intros Hf Hm Hl.
    destruct (locker_cleanup_run (JSONLocalStorage.locker self) key lock w')
      as (_ & Hfs & _).
    rewrite Hl in Hfs. cbn in Hfs. rewrite Hfs, Hfault. auto. }
  destruct r as [e|[]].
  - destruct Hr as [Hfiles Hr].
    destruct (refusal (fs_fault (fs w) OpRemove path)) as [e'|] eqn:Hf.
    + subst e'. apply refusal_found in Hf. destruct e; try discriminate.
      contradiction.
    + destruct Hr as [-> Hm]. apply Hgo; [reflexivity|].
      rewrite Hfiles. exact Hm.
  - destruct Hr as (Hf & _ & Hfiles). apply Hgo; [exact Hf|].
    rewrite Hfiles. apply lookup_delete_eq.
Qed.


(** *** Construction *)

(** C8. A [JSONLocalStorage] built without a [locker] argument holds a
    [FileLocker] on its own directory; a locker given by the caller, [None]
    included, is kept as it is; [S3Storage] has no locker unless one is
    given. *)
Theorem locker_resolved_at_construction (class_name bucket : string)
    (dirname : option string) (l : BaseLocker LockerState) :
  let built := JSONLocalStorage.new class_name dirname in
  JSONLocalStorage.locker (built None)
    = Some (FileLocker (JSONLocalStorage.dirname (built None))) /\
  JSONLocalStorage.dirname (built None) = default "/tmp" dirname /\
  JSONLocalStorage.locker (built (Some JSONLocalStorage.ArgNone)) = None /\
  JSONLocalStorage.locker (built (Some (JSONLocalStorage.ArgLocker l)))
    = Some l /\
  S3Storage.locker (S3Storage.new class_name bucket None) = None /\
  S3Storage.locker (S3Storage.new class_name bucket (Some None)) = None /\
  S3Storage.locker (S3Storage.new class_name bucket (Some (Some l))) = Some l.
Proof. cbn. repeat split. Qed.

(** *** Storage ids *)

Lemma storage_id_inj_class (c1 c2 key : string) :
  BaseStorage._get_path_by_key c1 key = BaseStorage._get_path_by_key c2 key ->
  c1 = c2.
Proof. unfold BaseStorage._get_path_by_key. apply append_inj_r. Qed.

Lemma os_path_join_inj (d b1 b2 : string) :
  String.prefix "/" b1 = false -> String.prefix "/" b2 = false ->
  os_path_join d b1 = os_path_join d b2 -> b1 = b2.
Proof.
  unfold os_path_join. intros -> ->.
  destruct (String.eqb d "" || endswith_char d "/"); intros Heq.
  - apply (append_inj_l _ _ _ Heq).
  - apply append_inj_l in Heq. apply (append_inj_l _ _ _ Heq).
Qed.

(** The local [save] touches the file of its key only. *)
Lemma local_save_frame (self : JSONLocalStorage.t) (key : string)
    (value : pyobj) (w : World) (p : string) :
  p <> JSONLocalStorage._get_path_by_key self key ->
  files (fs (fst (JSONLocalStorage.save self key value w))) !! p
    = files (fs w) !! p /\
  fs_fault (fs (fst (JSONLocalStorage.save self key value w))) = fs_fault (fs w).
Proof.
  intros Hp. unfold JSONLocalStorage.save. unfold_prims. unfold_monad. cbn.
  destruct (fs_fault (fs w) OpOpenW _); cbn; [auto|].
  destruct (pickle_dumps_base64 value); cbn.
  - destruct (fs_quota (fs w) _) as [n|]; [destruct (n <? _)%nat|]; cbn;
      rewrite !lookup_insert_ne by congruence; auto.
  - rewrite lookup_insert_ne by congruence. auto.
Qed.

(** The S3 [save] touches the object of its key only. *)
Lemma s3_save_frame (self : S3Storage.t) (key : string)
    (value : pyobj) (w : World) (p : string * string) :
  p <> (S3Storage.bucket self, S3Storage._get_path_by_key self key) ->
  objects (s3 (fst (S3Storage.save self key value w))) !! p
    = objects (s3 w) !! p /\
  s3_fault (s3 (fst (S3Storage.save self key value w))) = s3_fault (s3 w).
Proof.
  intros Hp. unfold S3Storage.save. unfold_prims. unfold_monad. cbn.
  destruct (pickle_dumps_base64 value); cbn; [|auto].
  destruct (s3_fault (s3 w) OpUpload _ _); cbn; [auto|].
  rewrite lookup_insert_ne by congruence. auto.
Qed.

(** C9. The storage id is a function of the name of the class and of the
    key alone; two classes of different names give different ids to the same
    key, so what one backend saves under a key does not change what a backend
    of another class on the same directory or bucket loads for it. *)
Theorem storage_id_by_class_and_key (key : string) :
  (forall a b : S3Storage.t,
      S3Storage.class_name a = S3Storage.class_name b ->
      S3Storage._get_path_by_key a key = S3Storage._get_path_by_key b key) /\
  (forall a b : JSONLocalStorage.t,
      JSONLocalStorage.class_name a = JSONLocalStorage.class_name b ->
      JSONLocalStorage.dirname a = JSONLocalStorage.dirname b ->
      JSONLocalStorage._get_path_by_key a key
        = JSONLocalStorage._get_path_by_key b key) /\
  (forall c1 c2 : string,
      c1 <> c2 ->
      BaseStorage._get_path_by_key c1 key <> BaseStorage._get_path_by_key c2 key) /\
  BaseStorage._get_path_by_key JSONLocalStorage.__name__ key
    <> BaseStorage._get_path_by_key S3Storage.__name__ key /\
  (forall (a b : JSONLocalStorage.t) (value : pyobj) (w : World),
      JSONLocalStorage.dirname a = JSONLocalStorage.dirname b ->
      JSONLocalStorage.class_name a <> JSONLocalStorage.class_name b ->
      String.prefix "/" (JSONLocalStorage.class_name a) = false ->
      String.prefix "/" (JSONLocalStorage.class_name b) = false ->
      snd (JSONLocalStorage.load b key
             (fst (JSONLocalStorage.save a key value w)))
        = snd (JSONLocalStorage.load b key w)) /\
  (forall (a b : S3Storage.t) (value : pyobj) (w : World),
      S3Storage.bucket a = S3Storage.bucket b ->
      S3Storage.class_name a <> S3Storage.class_name b ->
      snd (S3Storage.load b key (fst (S3Storage.save a key value w)))
        = snd (S3Storage.load b key w)).
Proof.
  split; [|split; [|split; [|split; [|split]]]].
  - intros a b Hc. unfold S3Storage._get_path_by_key. rewrite Hc. reflexivity.
  - intros a b Hc Hd. unfold JSONLocalStorage._get_path_by_key.
    rewrite Hc, Hd. reflexivity.
  - intros c1 c2 Hne Heq. apply Hne. apply (storage_id_inj_class _ _ _ Heq).
  - intros Heq. apply storage_id_inj_class in Heq. discriminate.
  - intros a b value w Hd Hne Ha Hb.
    assert (Hp : JSONLocalStorage._get_path_by_key b key
                 <> JSONLocalStorage._get_path_by_key a key).
    { unfold JSONLocalStorage._get_path_by_key. rewrite Hd. intros Heq.
      apply os_path_join_inj in Heq;
        [|apply prefix_slash_append; assumption..].
      apply storage_id_inj_class in Heq. auto. }
    destruct (local_save_frame a key value w _ Hp) as [Hfiles Hfault].
    rewrite !local_load_run, Hfiles, Hfault. reflexivity.
  - intros a b value w Hb Hne.
    assert (Hp : (S3Storage.bucket b, S3Storage._get_path_by_key b key)
                 <> (S3Storage.bucket a, S3Storage._get_path_by_key a key)).
    { intros [= _ Heq]. apply storage_id_inj_class in Heq. auto. }
    destruct (s3_save_frame a key value w _ Hp) as [Hobjs Hfault].
    rewrite !s3_load_run, Hobjs, Hfault. reflexivity.
Qed.

End Properties.

(** ** The properties on the concrete collaborators *)

Import (hints) Sample.

(** The payload of [Sample.state]. *)
Lemma sample_payload :
  pickle_dumps_base64 Sample.state
    = Some "7b0a20202020226f6666736574223a2034320a7d".
Proof. vm_compute. reflexivity. Qed.

(** C1 on the scenario of the specification: [{"offset": 42}] saved under
    ["pipeline-1"] is loaded back from both backends. *)
Lemma save_load_round_trip_witness :
  snd (JSONLocalStorage.load Sample.local Sample.key Sample.saved_locally)
    = inr Sample.state /\
  snd (S3Storage.load Sample.remote Sample.key Sample.saved_remotely)
    = inr Sample.state.
Proof.
  destruct (save_load_round_trip Sample.key Sample.state
              "7b0a20202020226f6666736574223a2034320a7d") as [Hlocal Hremote].
  - exact sample_payload.
  - discriminate.
  - vm_compute. reflexivity.
  - vm_compute. discriminate.
  - vm_compute. reflexivity.
  - split.
    + apply (Hlocal Sample.local Sample.empty_world); vm_compute; reflexivity.
    + apply (Hremote Sample.remote Sample.empty_world); vm_compute; reflexivity.
Defined.

(** C10 on an empty file and an empty object. *)
Lemma load_empty_content_is_absent_witness :
  snd (JSONLocalStorage.load Sample.local Sample.key Sample.empty_file)
    = inr PyNone /\
  snd (S3Storage.load Sample.remote Sample.key Sample.empty_object)
    = inr PyNone.
Proof.
  split.
  - apply (proj1 (load_empty_content_is_absent Sample.local Sample.remote
                    Sample.key Sample.empty_file)).
    vm_compute. reflexivity.
  - apply (proj2 (load_empty_content_is_absent Sample.local Sample.remote
                    Sample.key Sample.empty_object)).
    vm_compute. reflexivity.
Defined.



(** C4 as stated fails: [load] returns [None] for an empty file and for an
    empty object, which the backend did not report as not found. *)
Lemma absent_without_not_found :
  ~ local_absent_iff_not_found Sample.local Sample.key Sample.empty_file /\
  ~ s3_absent_iff_not_found Sample.remote Sample.key Sample.empty_object.
Proof.
  split.
  - intros [Hnone _]. specialize (Hnone ltac:(vm_compute; reflexivity)).
    vm_compute in Hnone. discriminate.
  - intros [Hnone _].
    destruct (Hnone ltac:(vm_compute; reflexivity)) as (e & He & _).
    vm_compute in He. discriminate.
Qed.

(** C4, amended: nothing stored gives [None]; a bucket that answers 403
    makes [load] raise that error; an envelope whose unpickling raises
    [FileNotFoundError] gives [None]. *)
Lemma load_absent_or_raise_witness :
  snd (JSONLocalStorage.load Sample.local Sample.key Sample.empty_world)
    = inr PyNone /\
  snd (S3Storage.load Sample.remote Sample.key Sample.empty_world)
    = inr PyNone /\
  snd (S3Storage.load Sample.remote Sample.key
         (Sample.with_download_error Sample.access_denied Sample.empty_world))
    = inl Sample.access_denied /\
  snd (JSONLocalStorage.load Scenario.opening_local Sample.key
         Scenario.reopening_file) = inr PyNone.
Proof.
  pose proof (load_absent_or_raise Sample.local Sample.remote Sample.key
                Sample.empty_world) as Hempty.
  pose proof (load_absent_or_raise Sample.local Sample.remote Sample.key
                (Sample.with_download_error Sample.access_denied
                   Sample.empty_world)) as Hdenied.
  pose proof (@load_absent_or_raise Scenario.opening Scenario.opening_local
                Scenario.opening_remote Sample.key Scenario.reopening_file)
    as Hreopening.
  cbv zeta in Hempty, Hdenied, Hreopening.
  destruct Hempty as [(_ & Hmissing & _) (Hunseeded & _)].
  destruct Hdenied as [_ (_ & _ & _ & Hraise & _)].
  destruct Hreopening as [(_ & _ & _ & _ & Hnone) _].
  split; [|split; [|split]].
  - apply Hmissing. vm_compute. reflexivity.
  - apply Hunseeded; vm_compute; reflexivity.
  - apply Hraise; vm_compute; reflexivity.
  - apply Hnone. right. right. exists Scenario.reopening_envelope.
    split; [vm_compute; reflexivity|].
    split; [vm_compute; discriminate|].
    right. vm_compute. reflexivity.
Defined.

(** C2 as stated fails: with the envelope of [Sample.state] in place, a
    [save] of a value that cannot be pickled raises and leaves the file
    empty, neither the prior envelope nor a new one. *)
Lemma failed_save_leaves_empty_file :
  ~ local_save_is_atomic Sample.local Sample.key Sample.callback
      Sample.saved_locally.
Proof.
  intros Hatomic.
  destruct (Hatomic
              PicklingError
              (json_dumps (JSONLocalStorage.envelope Sample.key
                 "7b0a20202020226f6666736574223a2034320a7d")))
    as [Hold|(payload & Hdumps & _)].
  - vm_compute. reflexivity.
  - vm_compute. reflexivity.
  - vm_compute in Hold. discriminate.
  - vm_compute in Hdumps. discriminate.
Qed.

(** C2, amended, on a device that accepts 12 characters: the file is left
    with the first 12 characters of the new envelope. *)
Lemma save_overwrites_in_place_witness :
  exists text,
    files (fs (fst (JSONLocalStorage.save Sample.local Sample.key
                      Sample.next_state
                      (Sample.with_quota 12 Sample.saved_locally))))
      = <[Sample.local_path := text]> (files (fs Sample.saved_locally)) /\
    String.prefix text
      (json_dumps (JSONLocalStorage.envelope Sample.key
         "7b0a20202020226f6666736574223a2034330a7d")) = true.
Proof.
  destruct (proj1 (save_overwrites_in_place Sample.local Sample.remote
                     Sample.key Sample.next_state
                     (Sample.with_quota 12 Sample.saved_locally)))
    as (text & Hfiles & _ & Hprefix).
  - vm_compute. reflexivity.
  - exists text. split; [exact Hfiles|].
    apply (Hprefix "7b0a20202020226f6666736574223a2034330a7d").
    vm_compute. reflexivity.
Defined.

(** C5 as stated fails: when the system refuses the removal, the local
    [cleanup] raises [PermissionError] instead of going on to the locker. *)
Lemma local_cleanup_raises_permission_error :
  ~ local_deletion_errors_suppressed Sample.local Sample.key Sample.handle
      Sample.sealed.
Proof.
  intros Hsuppressed.
  specialize (Hsuppressed PermissionError ltac:(vm_compute; reflexivity)).
  apply (f_equal snd) in Hsuppressed.
  vm_compute in Hsuppressed. discriminate.
Qed.

(** C5, amended: in the sealed directory the local [cleanup] raises the
    error of [os.remove]; with nothing stored it reaches the locker. *)
Lemma cleanup_deletion_errors_witness :
  snd (JSONLocalStorage.cleanup Sample.local Sample.key Sample.handle
         Sample.sealed) = inl PermissionError /\
  JSONLocalStorage.cleanup Sample.local Sample.key Sample.handle
    Sample.empty_world =
  BaseExternalLockerStorage.cleanup (JSONLocalStorage.locker Sample.local)
    Sample.key Sample.handle
    (fst (os_remove Sample.local_path Sample.empty_world)).
Proof.
  destruct (cleanup_deletion_errors Sample.local Sample.remote Sample.key
              Sample.handle Sample.sealed) as (_ & _ & Hraise).
  destruct (cleanup_deletion_errors Sample.local Sample.remote Sample.key
              Sample.handle Sample.empty_world) as (_ & Hgo & _).
  split.
  - rewrite (Hraise PermissionError);
      [reflexivity|vm_compute; reflexivity|discriminate].
  - apply Hgo. right. vm_compute. reflexivity.
Defined.

(** C6 on the default local storage, whose [FileLocker] is truthy, and on
    a bucket storage that was given a locker: the deletion, then the
    clean-up of the handle, which the locker has recorded. *)
Lemma cleanup_deletes_before_release_witness :
  let after :=
    fst (JSONLocalStorage.cleanup Sample.local Sample.key Sample.handle
           Sample.saved_locally) in
  let after3 :=
    fst (S3Storage.cleanup Scenario.locked_remote Sample.key Sample.handle
           Sample.saved_remotely) in
  (trace after =
     (trace Sample.saved_locally ++
        [EvRemove Sample.local_path; EvLockerCleanup Sample.handle])%list /\
   lockers after = [Sample.handle] /\
   files (fs after) !! Sample.local_path = None) /\
  (trace after3 =
     (trace Sample.saved_remotely ++
        [EvDelete "state" Sample.remote_name;
         EvLockerCleanup Sample.handle])%list /\
   lockers after3 = [Sample.handle]).
Proof.
  intros after after3.
  pose proof (cleanup_deletes_before_release Sample.local
                Scenario.locked_remote Sample.key Sample.handle
                Sample.saved_locally) as Hlocal.
  pose proof (cleanup_deletes_before_release Sample.local
                Scenario.locked_remote Sample.key Sample.handle
                Sample.saved_remotely) as Hremote.
  cbv zeta in Hlocal, Hremote.
  destruct Hlocal as (Hlocal & _).
  destruct Hremote as (_ & _ & _ & Hremote & _).
  split.
  - apply (Hlocal Sample.list_locker);
      [reflexivity|reflexivity|left; vm_compute; reflexivity].
  - apply (Hremote Sample.list_locker); reflexivity.
Defined.



(** C9 on two classes that share the directory and the bucket. *)
Lemma storage_id_by_class_and_key_witness :
  snd (JSONLocalStorage.load Sample.other_local Sample.key Sample.saved_locally)
    = inr PyNone /\
  snd (S3Storage.load Sample.other_remote Sample.key Sample.saved_remotely)
    = inr PyNone.
Proof.
  destruct (storage_id_by_class_and_key Sample.key)
    as (_ & _ & _ & _ & Hlocal & Hremote).
  split.
  - unfold Sample.saved_locally.
    rewrite (Hlocal Sample.local Sample.other_local Sample.state
               Sample.empty_world);
      [vm_compute; reflexivity|reflexivity|discriminate
      |reflexivity|reflexivity].
  - unfold Sample.saved_remotely.
    rewrite (Hremote Sample.remote Sample.other_remote Sample.state
               Sample.empty_world);
      [vm_compute; reflexivity|reflexivity|discriminate].
Defined.

(** ** Further properties of the storage code *)

Section MoreProperties.
Context `{Externals}.

(** *** [load] reads only *)

(** X1. [load] makes one read call and changes nothing that is stored, on both
    backends and whatever it returns or raises. *)
Theorem load_is_read_only (local : JSONLocalStorage.t) (remote : S3Storage.t)
    (key : string) (w : World) :
  let after := fst (JSONLocalStorage.load local key w) in
  let after3 := fst (S3Storage.load remote key w) in
  (fs after = fs w /\ s3 after = s3 w /\ lockers after = lockers w /\
   trace after
     = (trace w ++ [EvOpenR (JSONLocalStorage._get_path_by_key local key)])%list) /\
  (fs after3 = fs w /\ s3 after3 = s3 w /\ lockers after3 = lockers w /\
   trace after3
     = (trace w ++ [EvDownload (S3Storage.bucket remote)
                      (S3Storage._get_path_by_key remote key)])%list).
Proof.
  split.
  - unfold JSONLocalStorage.load, JSONLocalStorage.load_body.
    unfold_prims. unfold_monad. cbn.
    destruct (refusal (fs_fault (fs w) OpOpenR _)) as [e|]; cbn;
      [destruct e; cbn; auto|].
    destruct (files (fs w) !! _) as [content|]; cbn; [|auto].
    destruct (String.eqb content ""); cbn; [auto|].
    destruct (JSONLocalStorage.parse_envelope content) as [e|v]; cbn; [|auto].
    destruct e; cbn; auto.
  - unfold S3Storage.load, S3Storage.load_body.
    unfold_prims. unfold_monad. cbn.
    destruct (s3_fault (s3 w) OpDownload _ _) as [e|]; cbn.
    + destruct (S3Storage._is_not_found_error e) as [t|[|]]; cbn; auto.
    + destruct (objects (s3 w) !! _) as [[content meta]|]; cbn; [|auto].
      destruct (String.eqb content ""); cbn; [auto|].
      destruct (pickle_loads content) as [e|v]; cbn; [|auto].
      destruct (S3Storage._is_not_found_error e) as [t|[|]]; cbn; auto.
Qed.

(** *** Keys do not interfere *)

Lemma prefix_slash_same_class (c x y : string) :
  String.prefix "/" (c ++ "_" ++ x) = String.prefix "/" (c ++ "_" ++ y).
Proof.
  destruct c as [|a r]; [reflexivity|].
  change (String a r ++ "_" ++ x) with (String a (r ++ "_" ++ x)).
  change (String a r ++ "_" ++ y) with (String a (r ++ "_" ++ y)).
  cbn. destruct (ascii_dec "/" a); [|reflexivity].
  destruct (r ++ "_" ++ x), (r ++ "_" ++ y); reflexivity.
Qed.

(** Within one instance, equal paths come from equal digests. *)
Lemma local_path_inj_digest (self : JSONLocalStorage.t) (k k' : string) :
  JSONLocalStorage._get_path_by_key self k
    = JSONLocalStorage._get_path_by_key self k' ->
  get_base64_digest k = get_base64_digest k'.
Proof.
  unfold JSONLocalStorage._get_path_by_key, BaseStorage._get_path_by_key,
         os_path_join.
  rewrite (prefix_slash_same_class _ (get_base64_digest k)
                                     (get_base64_digest k')).
  destruct (String.prefix "/" _).
  - intros Heq. apply append_inj_l in Heq. apply (append_inj_l _ _ _ Heq).
  - destruct (String.eqb _ "" || endswith_char _ "/"); intros Heq;
      repeat apply append_inj_l in Heq; exact Heq.
Qed.

Lemma s3_path_inj_digest (self : S3Storage.t) (k k' : string) :
  S3Storage._get_path_by_key self k = S3Storage._get_path_by_key self k' ->
  get_base64_digest k = get_base64_digest k'.
Proof.
  unfold S3Storage._get_path_by_key, BaseStorage._get_path_by_key.
  intros Heq. apply append_inj_l in Heq. apply (append_inj_l _ _ _ Heq).
Qed.

(** The local [cleanup] touches the file of its key only. *)
Lemma local_cleanup_frame (self : JSONLocalStorage.t) (key : string)
    (lock : pyobj) (w : World) (p : string) :
  p <> JSONLocalStorage._get_path_by_key self key ->
  files (fs (fst (JSONLocalStorage.cleanup self key lock w))) !! p
    = files (fs w) !! p /\
  fs_fault (fs (fst (JSONLocalStorage.cleanup self key lock w)))
    = fs_fault (fs w).
Proof.
  intros Hp. rewrite local_cleanup_run.
  set (path := JSONLocalStorage._get_path_by_key self key) in *.
  destruct (os_remove_run path w) as (_ & _ & _ & Hfault & _ & Hr).
  destruct (os_remove path w) as [w' r]. cbn in Hfault, Hr.
  assert (Hfiles : files (fs w') !! p = files (fs w) !! p).
  { destruct r as [e|[]].
    - destruct Hr as [-> _]. reflexivity.
    - destruct Hr as (_ & _ & ->). apply lookup_delete_ne. congruence. }
  assert (Hgo : files (fs (fst (BaseExternalLockerStorage.cleanup
                   (JSONLocalStorage.locker self) key lock w'))) !! p
                = files (fs w) !! p /\
                fs_fault (fs (fst (BaseExternalLockerStorage.cleanup
                   (JSONLocalStorage.locker self) key lock w')))
                = fs_fault (fs w)).
  { destruct (locker_cleanup_run (JSONLocalStorage.locker self) key lock w')
      as (_ & -> & _). auto. }
  destruct r as [e|[]]; [destruct e|]; cbn; auto.
Qed.

(** The S3 [cleanup] touches the object of its key only. *)
Lemma s3_cleanup_frame (self : S3Storage.t) (key : string)
    (lock : pyobj) (w : World) (p : string * string) :
  p <> (S3Storage.bucket self, S3Storage._get_path_by_key self key) ->
  objects (s3 (fst (S3Storage.cleanup self key lock w))) !! p
    = objects (s3 w) !! p /\
  s3_fault (s3 (fst (S3Storage.cleanup self key lock w))) = s3_fault (s3 w).
Proof.
  intros Hp. rewrite s3_cleanup_run.
  destruct (locker_cleanup_run (S3Storage.locker self) key lock
              (fst (delete_object (S3Storage.bucket self)
                      (S3Storage._get_path_by_key self key) w)))
    as (_ & _ & -> & _).
  unfold delete_object. unfold_monad. cbn.
  destruct (s3_fault (s3 w) OpDelete _ _); cbn; [auto|].
  rewrite lookup_delete_ne by congruence. auto.
Qed.

(** X2. Neither [save] nor [cleanup] of a key changes what [load] gives for a key
    of another digest, on the same instance of either backend. *)
Theorem other_keys_untouched (local : JSONLocalStorage.t) (remote : S3Storage.t)
    (key key' : string) (value lock : pyobj) (w : World) :
  get_base64_digest key <> get_base64_digest key' ->
  (snd (JSONLocalStorage.load local key'
          (fst (JSONLocalStorage.save local key value w)))
     = snd (JSONLocalStorage.load local key' w) /\
   snd (JSONLocalStorage.load local key'
          (fst (JSONLocalStorage.cleanup local key lock w)))
     = snd (JSONLocalStorage.load local key' w)) /\
  (snd (S3Storage.load remote key' (fst (S3Storage.save remote key value w)))
     = snd (S3Storage.load remote key' w) /\
   snd (S3Storage.load remote key' (fst (S3Storage.cleanup remote key lock w)))
     = snd (S3Storage.load remote key' w)).
Proof.
  intros Hdigest.
  assert (Hlocal : JSONLocalStorage._get_path_by_key local key'
                   <> JSONLocalStorage._get_path_by_key local key).
  { intros Heq. apply local_path_inj_digest in Heq. auto. }
  assert (Hremote : (S3Storage.bucket remote,
                     S3Storage._get_path_by_key remote key')
                    <> (S3Storage.bucket remote,
                        S3Storage._get_path_by_key remote key)).
  { intros [= Heq]. apply s3_path_inj_digest in Heq. auto. }
  split; split.
  - destruct (local_save_frame local key value w _ Hlocal) as [Hfiles Hfault].
    rewrite !local_load_run, Hfiles, Hfault. reflexivity.
  - destruct (local_cleanup_frame local key lock w _ Hlocal) as [Hfiles Hfault].
    rewrite !local_load_run, Hfiles, Hfault. reflexivity.
  - destruct (s3_save_frame remote key value w _ Hremote) as [Hobjs Hfault].
    rewrite !s3_load_run, Hobjs, Hfault. reflexivity.
  - destruct (s3_cleanup_frame remote key lock w _ Hremote) as [Hobjs Hfault].
    rewrite !s3_load_run, Hobjs, Hfault. reflexivity.
Qed.

(** *** What [load] does not look at *)

(** X3. [load] never compares the key an envelope records with the key it is
    asked for: a file that holds the envelope written for [key0], an object
    with any metadata, is loaded under [key]. *)
Theorem load_ignores_recorded_key (local : JSONLocalStorage.t)
    (remote : S3Storage.t) (key key0 payload : string) (value meta : pyobj)
    (w : World) :
  payload <> "" ->
  pickle_loads_base64 payload = inr value ->
  (json_dumps (JSONLocalStorage.envelope key0 payload) <> "" ->
   json_loads (json_dumps (JSONLocalStorage.envelope key0 payload))
     = Some (JSONLocalStorage.envelope key0 payload) ->
   snd (open_read (JSONLocalStorage._get_path_by_key local key) w)
     = inr (json_dumps (JSONLocalStorage.envelope key0 payload)) ->
   snd (JSONLocalStorage.load local key w) = inr value) /\
  (s3_fault (s3 w) OpDownload (S3Storage.bucket remote)
            (S3Storage._get_path_by_key remote key) = None ->
   objects (s3 w) !! (S3Storage.bucket remote,
                      S3Storage._get_path_by_key remote key)
     = Some (payload, meta) ->
   snd (S3Storage.load remote key w) = inr value).
Proof.
  intros Hne Hloads. split.
  - intros Htext Hjson Hread.
    rewrite local_load_of_read, Hread, (eqb_empty_false _ Htext).
    unfold JSONLocalStorage.parse_envelope.
    rewrite Hjson, envelope_value. cbn. unfold pickle_loads.
    rewrite Hloads. reflexivity.
  - intros Hfault Hobj.
    rewrite s3_load_run, Hfault, Hobj, (eqb_empty_false _ Hne).
    unfold pickle_loads. rewrite Hloads. reflexivity.
Qed.

(** *** [cleanup], then [load] *)

(** The local [cleanup] changes no answer of the system. *)
Lemma local_cleanup_fault (self : JSONLocalStorage.t) (key : string)
    (lock : pyobj) (w : World) :
  fs_fault (fs (fst (JSONLocalStorage.cleanup self key lock w)))
    = fs_fault (fs w).
Proof.
  rewrite local_cleanup_run.
  set (path := JSONLocalStorage._get_path_by_key self key).
  destruct (os_remove_run path w) as (_ & _ & _ & Hfault & _).
  destruct (os_remove path w) as [w' r]. cbn in Hfault.
  assert (Hgo : fs_fault (fs (fst (BaseExternalLockerStorage.cleanup
                   (JSONLocalStorage.locker self) key lock w')))
                = fs_fault (fs w)).
  { destruct (locker_cleanup_run (JSONLocalStorage.locker self) key lock w')
      as (_ & -> & _). exact Hfault. }
  destruct r as [e|[]]; [destruct e|]; cbn; auto.
Qed.

(** X4. After a local [cleanup] that returned, [load] gives [None].  After an
    S3 [cleanup], [load] gives [None] when the bucket accepted the deletion;
    when the bucket refused it, the refusal is suppressed, the object stays
    and [load] gives what it gave before. *)
Theorem load_after_cleanup (local : JSONLocalStorage.t) (remote : S3Storage.t)
    (key : string) (lock : pyobj) (w : World) :
  let path := JSONLocalStorage._get_path_by_key local key in
  let name := S3Storage._get_path_by_key remote key in
  let bucket := S3Storage.bucket remote in
  (snd (JSONLocalStorage.cleanup local key lock w) = inr tt ->
   fs_fault (fs w) OpOpenR path = None ->
   snd (JSONLocalStorage.load local key
          (fst (JSONLocalStorage.cleanup local key lock w))) = inr PyNone) /\
  (s3_fault (s3 w) OpDelete bucket name = None ->
   s3_fault (s3 w) OpDownload bucket name = None ->
   snd (S3Storage.load remote key (fst (S3Storage.cleanup remote key lock w)))
     = inr PyNone) /\
  (forall e, s3_fault (s3 w) OpDelete bucket name = Some e ->
   snd (S3Storage.load remote key (fst (S3Storage.cleanup remote key lock w)))
     = snd (S3Storage.load remote key w)).
Proof.
  intros path name bucket. split; [|split].
  - intros Hok Hread.
    destruct (JSONLocalStorage.cleanup local key lock w) as [w1 r] eqn:Hc.
    cbn in Hok |- *. subst r.
    destruct (local_cleanup_ok _ _ _ _ _ Hc) as [_ Hgone].
    pose proof (local_cleanup_fault local key lock w) as Hfault.
    rewrite Hc in Hfault. cbn in Hfault.
    unfold path in Hread.
    rewrite local_load_run, Hfault, Hread, Hgone. reflexivity.
  - intros Hdel Hdown. rewrite s3_cleanup_run. fold name bucket.
    rewrite s3_load_run. fold name bucket.
    destruct (locker_cleanup_run (S3Storage.locker remote) key lock
                (fst (delete_object bucket name w))) as (_ & _ & -> & _).
    unfold delete_object. unfold_monad. cbn. rewrite Hdel. cbn.
    rewrite Hdown, lookup_delete_eq. reflexivity.
  - intros e Hdel. rewrite s3_cleanup_run. fold name bucket.
    rewrite !s3_load_run. fold name bucket.
    destruct (locker_cleanup_run (S3Storage.locker remote) key lock
                (fst (delete_object bucket name w))) as (_ & _ & -> & _).
    unfold delete_object. unfold_monad. cbn. rewrite Hdel. reflexivity.
Qed.

(** *** [_is_not_found_error] and the errors of [load] *)

Lemma is_not_found_dict_answers (info : list (string * pyobj)) :
  let error_info := PyDict info in
  exists b,
    rbind (S3Storage.and_then (inr (truthy error_info))
             (S3Storage.and_then (S3Storage.contains "Code" error_info)
                                 (S3Storage.contains "Message" error_info)))
      (fun cond =>
         if cond then
           S3Storage.and_then
             (rbind (getitem error_info "Code")
                    (fun c => inr (S3Storage.eq_str c "404")))
             (rbind (getitem error_info "Message")
                    (fun m => inr (S3Storage.eq_str m "Not Found")))
         else inr false) = inr b.
Proof.
  cbn. unfold S3Storage.and_then, S3Storage.contains, getitem, rbind.
  destruct info as [|kv info']; [cbn; eauto|].
  set (info := kv :: info'). cbn [truthy].
  destruct (dict_get info "Code") as [c|] eqn:Hc;
    [rewrite bool_decide_eq_true_2 by eauto
    |rewrite bool_decide_eq_false_2 by (intros [? [=]]); eauto].
  destruct (dict_get info "Message") as [m|] eqn:Hm;
    [rewrite bool_decide_eq_true_2 by eauto
    |rewrite bool_decide_eq_false_2 by (intros [? [=]]); eauto].
  destruct (S3Storage.eq_str c "404"); eauto.
Qed.

(** On a response whose [Error] is a mapping, the two [in] tests guard the
    two subscripts: the function answers, it does not raise. *)
Lemma is_not_found_mapping_answers (exc : exception)
    (items info : list (string * pyobj)) :
  getattr_or_none exc "response" = PyDict items ->
  dict_get items "Error" = Some (PyDict info) ->
  exists b, S3Storage._is_not_found_error exc = inr b.
Proof.
  intros Hresp Herr. unfold S3Storage._is_not_found_error.
  rewrite Hresp, Herr. exact (is_not_found_dict_answers info).
Qed.

(** The only error [_is_not_found_error] raises is [TypeError]. *)
Lemma is_not_found_raises_type_error (exc e : exception) :
  S3Storage._is_not_found_error exc = inl e -> e = TypeError.
Proof.
  destruct (getattr_or_none exc "response") as [|n|s|items|f] eqn:Hresp;
    try (unfold S3Storage._is_not_found_error; rewrite Hresp; discriminate).
  destruct (dict_get items "Error") as [error_info|] eqn:Herr.
  - destruct error_info as [|n|s|info|f].
    + unfold S3Storage._is_not_found_error. rewrite Hresp, Herr. discriminate.
    + unfold S3Storage._is_not_found_error. rewrite Hresp, Herr. cbn.
      destruct (negb (n =? 0)%Z); cbn; [intros [= <-]; reflexivity|discriminate].
    + unfold S3Storage._is_not_found_error. rewrite Hresp, Herr.
      unfold S3Storage.and_then, S3Storage.contains, getitem, rbind. cbn.
      repeat case_match; simplify_eq;
        first [discriminate | intros [= <-]; reflexivity].
    + destruct (is_not_found_mapping_answers exc items info Hresp Herr)
        as [b ->]. discriminate.
    + unfold S3Storage._is_not_found_error. rewrite Hresp, Herr. cbn.
      intros [= <-]. reflexivity.
  - unfold S3Storage._is_not_found_error. rewrite Hresp, Herr. discriminate.
Qed.

(** X5. [_is_not_found_error] answers [False] for an exception without a
    [response] mapping or without an [Error] in it, answers without raising
    when [Error] is a mapping, and raises [TypeError], nothing else, when
    [Error] is a text that contains both ['Code'] and ['Message']: [load]
    then raises that [TypeError] in place of the exception of the bucket. *)
Theorem is_not_found_error_outcomes (remote : S3Storage.t) (key : string)
    (exc : exception) (w : World) :
  ((forall items, getattr_or_none exc "response" <> PyDict items) ->
   S3Storage._is_not_found_error exc = inr false) /\
  (forall items, getattr_or_none exc "response" = PyDict items ->
   dict_get items "Error" = None ->
   S3Storage._is_not_found_error exc = inr false) /\
  (forall items info, getattr_or_none exc "response" = PyDict items ->
   dict_get items "Error" = Some (PyDict info) ->
   exists b, S3Storage._is_not_found_error exc = inr b) /\
  (forall e, S3Storage._is_not_found_error exc = inl e -> e = TypeError) /\
  (forall items text, getattr_or_none exc "response" = PyDict items ->
   dict_get items "Error" = Some (PyStr text) ->
   str_contains "Code" text = true -> str_contains "Message" text = true ->
   S3Storage._is_not_found_error exc = inl TypeError /\
   (snd (download_fileobj (S3Storage.bucket remote)
           (S3Storage._get_path_by_key remote key) w) = inl exc ->
    snd (S3Storage.load remote key w) = inl TypeError)).
Proof.
  split; [|split; [|split; [|split]]].
  - intros Hnone. unfold S3Storage._is_not_found_error.
    destruct (getattr_or_none exc "response") as [|n|s|items|f];
      try reflexivity.
    destruct (Hnone items). reflexivity.
  - intros items Hresp Herr. unfold S3Storage._is_not_found_error.
    rewrite Hresp, Herr. reflexivity.
  - apply is_not_found_mapping_answers.
  - apply is_not_found_raises_type_error.
  - intros items text Hresp Herr Hcode Hmessage.
    assert (Hraise : S3Storage._is_not_found_error exc = inl TypeError).
    { unfold S3Storage._is_not_found_error. rewrite Hresp, Herr.
      unfold S3Storage.and_then, S3Storage.contains, getitem, rbind. cbn.
      rewrite Hcode, Hmessage.
      destruct text as [|a r]; [discriminate Hcode|reflexivity]. }
    split; [exact Hraise|]. intros Hdown.
    rewrite s3_load_of_download, Hdown. unfold s3_load_handler.
    rewrite Hraise. reflexivity.
Qed.

(** X6. [load] never raises the not-found that it turns into [None]: the local
    one raises no [FileNotFoundError], the S3 one no exception of the
    not-found shape. *)
Theorem load_raises_no_not_found (local : JSONLocalStorage.t)
    (remote : S3Storage.t) (key : string) (w : World) (e : exception) :
  (snd (JSONLocalStorage.load local key w) = inl e -> e <> FileNotFoundError) /\
  (snd (S3Storage.load remote key w) = inl e -> ~ not_found_shape e).
Proof.
  split.
  - rewrite local_load_of_read.
    assert (Hhandled : forall r, local_load_handler r = inl e ->
                                 e <> FileNotFoundError).
    { intros [x|v]; [|discriminate].
      destruct x; cbn; intros [= <-]; discriminate. }
    destruct (snd (open_read _ w)) as [x|content].
    + apply (Hhandled (inl x)).
    + destruct (String.eqb content ""); [discriminate|]. apply Hhandled.
  - rewrite s3_load_of_download.
    assert (Hhandled : forall exc, s3_load_handler exc = inl e ->
                                   ~ not_found_shape e).
    { intros exc. unfold s3_load_handler.
      destruct (S3Storage._is_not_found_error exc) as [t|[|]] eqn:Hnf.
      - intros [= <-] (items & info & Hresp & _).
        rewrite (is_not_found_raises_type_error _ _ Hnf) in Hresp.
        discriminate.
      - discriminate.
      - intros [= <-] Hshape. apply is_not_found_iff in Hshape.
        rewrite Hshape in Hnf. discriminate. }
    destruct (snd (download_fileobj _ _ w)) as [exc|content].
    + apply Hhandled.
    + destruct (String.eqb content ""); [discriminate|].
      destruct (pickle_loads content) as [exc|v];
        [apply Hhandled|discriminate].
Qed.

(** X7. A stored JSON document without a ['value'] makes the local [load] raise
    [KeyError]; one that is not an object makes it raise [TypeError]. *)
Theorem load_malformed_envelope (local : JSONLocalStorage.t) (key content : string)
    (doc : pyobj) (w : World) :
  snd (open_read (JSONLocalStorage._get_path_by_key local key) w) = inr content ->
  content <> "" ->
  json_loads content = Some doc ->
  (forall items, doc = PyDict items -> dict_get items "value" = None ->
   snd (JSONLocalStorage.load local key w) = inl (KeyError "value")) /\
  ((forall items, doc <> PyDict items) ->
   snd (JSONLocalStorage.load local key w) = inl TypeError).
Proof.
  intros Hread Hne Hjson.
  rewrite local_load_of_read, Hread, (eqb_empty_false _ Hne).
  unfold JSONLocalStorage.parse_envelope. rewrite Hjson. split.
  - intros items -> Hmissing. cbn. rewrite Hmissing. reflexivity.
  - intros Hother. destruct doc as [|n|s|items|f]; try reflexivity.
    destruct (Hother items). reflexivity.
Qed.

(** *** The metadata of an uploaded object *)

Lemma dict_get_set_eq (d : list (string * pyobj)) (k : string) (v : pyobj) :
  dict_get (dict_set d k v) k = Some v.
Proof.
  induction d as [|[k' v'] d IH]; cbn.
  - rewrite String.eqb_refl. reflexivity.
  - destruct (String.eqb_spec k' k) as [->|Hne]; cbn.
    + rewrite String.eqb_refl. reflexivity.
    + destruct (String.eqb_spec k' k); [contradiction|exact IH].
Qed.

Lemma dict_get_set_ne (d : list (string * pyobj)) (k k' : string) (v : pyobj) :
  k <> k' -> dict_get (dict_set d k v) k' = dict_get d k'.
Proof.
  intros Hne. induction d as [|[k0 v0] d IH]; cbn.
  - destruct (String.eqb_spec k k'); [contradiction|reflexivity].
  - destruct (String.eqb_spec k0 k) as [->|Hk]; cbn.
    + destruct (String.eqb_spec k k'); [contradiction|reflexivity].
    + destruct (String.eqb_spec k0 k'); [reflexivity|exact IH].
Qed.

Lemma dict_get_app (d1 d2 : list (string * pyobj)) (k : string) :
  dict_get (d1 ++ d2)%list k =
  match dict_get d1 k with Some v => Some v | None => dict_get d2 k end.
Proof.
  induction d1 as [|[k' v'] d1 IH]; cbn; [reflexivity|].
  destruct (String.eqb k' k); [reflexivity|exact IH].
Qed.

Lemma dict_get_rev_none (d : list (string * pyobj)) (k : string) :
  dict_get d k = None -> dict_get (rev d) k = None.
Proof.
  induction d as [|[k' v'] d IH]; cbn; [reflexivity|].
  destruct (String.eqb k' k) eqn:Hk; [discriminate|].
  intros Hd. rewrite dict_get_app, (IH Hd). cbn. rewrite Hk. reflexivity.
Qed.

(** In [{**d1, **d2}] the last entry of [d2] under a name wins, then [d1]. *)
Lemma dict_get_merge (d1 d2 : list (string * pyobj)) (k : string) :
  dict_get (dict_merge d1 d2) k =
  match dict_get (rev d2) k with Some v => Some v | None => dict_get d1 k end.
Proof.
  unfold dict_merge. revert d1.
  induction d2 as [|[k' v'] d2 IH]; intros d1; cbn; [reflexivity|].
  rewrite IH, dict_get_app. destruct (dict_get (rev d2) k); [reflexivity|].
  cbn. destruct (String.eqb_spec k' k) as [->|Hne].
  - apply dict_get_set_eq.
  - apply dict_get_set_ne. exact Hne.
Qed.

(** X8. A completed [S3Storage.save] stores the pickled payload with a metadata
    dict that holds every entry of the stored meta (the last one of a name)
    and, under ['key'], the key itself unless the stored meta has an entry of
    that name. *)
Theorem uploaded_metadata (remote : S3Storage.t) (key : string)
    (value : pyobj) (w : World) :
  let after := S3Storage.save remote key value w in
  snd after = inr tt ->
  exists payload items,
    pickle_dumps_base64 value = Some payload /\
    objects (s3 (fst after)) !! (S3Storage.bucket remote,
                                 S3Storage._get_path_by_key remote key)
      = Some (payload, PyDict items) /\
    (dict_get get_stored_meta "key" = None ->
     dict_get items "key" = Some (PyStr key)) /\
    (forall k v, dict_get (rev get_stored_meta) k = Some v ->
     dict_get items k = Some v).
Proof.
  intros after Hok. subst after.
  destruct (S3Storage.save remote key value w) as [w' r] eqn:Hsave.
  cbn in Hok |- *. subst r.
  destruct (s3_save_ok _ _ _ _ _ Hsave) as (payload & Hd & Hobjs & _).
  exists payload, (dict_merge [("key", PyStr key)] get_stored_meta).
  split; [exact Hd|]. split; [rewrite Hobjs; apply lookup_insert_eq|]. split.
  - intros Hnone. rewrite dict_get_merge, (dict_get_rev_none _ _ Hnone).
    reflexivity.
  - intros k v Hlast. rewrite dict_get_merge, Hlast. reflexivity.
Qed.

(** *** What decides the outcome of the S3 [cleanup] *)

(** X9. The bucket has no part in the outcome of [S3Storage.cleanup]: it raises
    exactly when the clean-up of a locker that counts as true raises, with
    that error; a locker that counts as false is left alone. *)
Theorem s3_cleanup_outcome (remote : S3Storage.t) (key : string)
    (lock : pyobj) (w : World) :
  let after := S3Storage.cleanup remote key lock w in
  match S3Storage.locker remote with
  | Some l =>
      if lk_bool l then
        lockers (fst after) = fst (lk_cleanup l lock (lockers w)) /\
        snd after = match snd (lk_cleanup l lock (lockers w)) with
                    | Some e => inl e
                    | None => inr tt
                    end
      else lockers (fst after) = lockers w /\ snd after = inr tt
  | None => lockers (fst after) = lockers w /\ snd after = inr tt
  end.
Proof.
  cbv zeta. rewrite s3_cleanup_run.
  destruct (delete_object_run (S3Storage.bucket remote)
              (S3Storage._get_path_by_key remote key) w) as (_ & Hl & _).
  destruct (delete_object _ _ w) as [w' r]. cbn in Hl |- *.
  unfold BaseExternalLockerStorage.cleanup. unfold_monad.
  destruct (S3Storage.locker remote) as [l|]; cbn; [|auto].
  destruct (lk_bool l); cbn; [|auto].
  rewrite Hl. destruct (lk_cleanup l lock (lockers w)) as [ls [e|]]; cbn; auto.
Qed.

End MoreProperties.

(** *** [save] after [save] *)

Section SaveProperties.
Context `{Externals}.

(** Once the file is open, its content after [save] is [written_text]; the
    answers of the system and the quota stay. *)
Lemma local_save_files (self : JSONLocalStorage.t) (key : string)
    (value : pyobj) (w : World) :
  let path := JSONLocalStorage._get_path_by_key self key in
  let after := JSONLocalStorage.save self key value w in
  fs_fault (fs (fst after)) = fs_fault (fs w) /\
  fs_quota (fs (fst after)) = fs_quota (fs w) /\
  (fs_fault (fs w) OpOpenW path = None ->
   files (fs (fst after))
     = <[path := written_text (fs_quota (fs w) path) key value]> (files (fs w)) /\
   snd after =
     match pickle_dumps_base64 value with
     | None => inl PicklingError
     | Some payload =>
         match fs_quota (fs w) path with
         | Some n =>
             if (n <? String.length
                        (json_dumps (JSONLocalStorage.envelope key payload)))%nat
             then inl OSError else inr tt
         | None => inr tt
         end
     end).
Proof.
  intros path after. subst after. unfold JSONLocalStorage.save, written_text.
  fold path. unfold_prims. unfold_monad. cbn.
  destruct (fs_fault (fs w) OpOpenW path) as [f|]; cbn;
    [repeat split; discriminate|].
  destruct (pickle_dumps_base64 value) as [payload|]; cbn; [|auto].
  destruct (fs_quota (fs w) path) as [n|]; cbn;
    [destruct (n <? _)%nat; cbn|]; rewrite insert_insert_eq; auto.
Qed.

(** X12. Every [save] is a full replace: when the file can be opened, what the
    local [save] of [value] leaves and returns is the same whether or not
    another [save] under the key came before it, whatever that one wrote or
    raised; likewise for an S3 [save] that completes. *)
Theorem save_replaces_wholesale (local : JSONLocalStorage.t)
    (remote : S3Storage.t) (key : string) (earlier value : pyobj) (w : World) :
  let first := fst (JSONLocalStorage.save local key earlier w) in
  let first3 := fst (S3Storage.save remote key earlier w) in
  (fs_fault (fs w) OpOpenW (JSONLocalStorage._get_path_by_key local key) = None ->
   files (fs (fst (JSONLocalStorage.save local key value first)))
     = files (fs (fst (JSONLocalStorage.save local key value w))) /\
   snd (JSONLocalStorage.save local key value first)
     = snd (JSONLocalStorage.save local key value w)) /\
  (snd (S3Storage.save remote key value w) = inr tt ->
   objects (s3 (fst (S3Storage.save remote key value first3)))
     = objects (s3 (fst (S3Storage.save remote key value w))) /\
   snd (S3Storage.save remote key value first3) = inr tt).
Proof.
  intros first first3. split.
  - intros Hopen. subst first.
    destruct (local_save_files local key earlier w) as (Hf1 & Hq1 & H1).
    destruct (H1 Hopen) as [Hfiles1 _].
    destruct (local_save_files local key value w) as (_ & _ & H2).
    destruct (H2 Hopen) as [Hfiles2 Hres2].
    destruct (local_save_files local key value
                (fst (JSONLocalStorage.save local key earlier w)))
      as (_ & _ & H3).
    rewrite Hf1, Hq1 in H3. destruct (H3 Hopen) as [Hfiles3 Hres3].
    rewrite Hfiles3, Hfiles1, Hfiles2, Hres3, Hres2, insert_insert_eq. auto.
  - intros Hok. subst first3.
    destruct (S3Storage.save remote key value w) as [w2 r2] eqn:Hs2.
    cbn in Hok. subst r2.
    destruct (s3_save_ok _ _ _ _ _ Hs2) as (payload & Hd & Hobjs2 & _).
    cbn [fst].
    assert (Hup : s3_fault (s3 w) OpUpload (S3Storage.bucket remote)
                    (S3Storage._get_path_by_key remote key) = None).
    { revert Hs2. unfold S3Storage.save. unfold_prims. unfold_monad. cbn.
      rewrite Hd.
      destruct (s3_fault (s3 w) OpUpload _ _); [discriminate|reflexivity]. }
    unfold S3Storage.save. rewrite Hd. unfold_prims. unfold_monad. cbn.
    destruct (pickle_dumps_base64 earlier); cbn.
    + rewrite Hup. cbn. rewrite Hup. cbn.
      rewrite Hobjs2, insert_insert_eq. auto.
    + rewrite Hup. cbn. rewrite Hobjs2. auto.
Qed.

End SaveProperties.

(** *** [lock] *)

Section LockProperties.
Context `{LockerContext}.

(** How [lock] runs with a locker that counts as true. *)
Lemma lock_run {A : Type} (l : BaseLocker LockerState) (key : string)
    (body : pyobj -> M A) (w : World) :
  lk_bool l = true ->
  BaseExternalLockerStorage.lock (Some l) key body w =
  match BaseExternalLockerStorage.locker_enter l key w with
  | (w1, inl e) => (w1, inl e)
  | (w1, inr handle) =>
      match body handle w1 with
      | (w2, inl e) =>
          match lk_exit l handle (Some e) (lockers w2) with
          | (ls, inl e') => (fst (set_lockers ls w2), inl e')
          | (ls, inr true) =>
              (fst (set_lockers ls w2),
               inl BaseExternalLockerStorage.generator_didnt_stop)
          | (ls, inr false) => (fst (set_lockers ls w2), inl e)
          end
      | (w2, inr a) =>
          match lk_exit l handle None (lockers w2) with
          | (ls, inl e') => (fst (set_lockers ls w2), inl e')
          | (ls, inr _) => (fst (set_lockers ls w2), inr a)
          end
      end
  end.
Proof.
  intros Htrue. unfold BaseExternalLockerStorage.lock. rewrite Htrue.
  unfold bind at 1.
  destruct (BaseExternalLockerStorage.locker_enter l key w) as [w1 [e|h]];
    [reflexivity|].
  unfold bind at 1. unfold BaseExternalLockerStorage.attempt.
  destruct (body h w1) as [w2 [e|a]];
    unfold BaseExternalLockerStorage.locker_exit; unfold_monad; cbn.
  - destruct (lk_exit l h (Some e) (lockers w2)) as [ls [e'|[|]]]; reflexivity.
  - destruct (lk_exit l h None (lockers w2)) as [ls [e'|b]]; reflexivity.
Qed.

(** X10. Under [lock] with a locker, the region runs only once the locker is
    entered, and whatever the region does, returning or raising, the locker
    is left exactly once, after the region, being told the exception of the
    region; the storage is as the region left it. *)
Theorem lock_always_releases {A : Type} (l : BaseLocker LockerState)
    (key : string) (body : pyobj -> M A) (w : World) :
  lk_bool l = true ->
  let entered := BaseExternalLockerStorage.locker_enter l key w in
  let after := BaseExternalLockerStorage.lock (Some l) key body w in
  (forall e, snd entered = inl e -> after = (fst entered, inl e)) /\
  (forall handle, snd entered = inr handle ->
   let region := body handle (fst entered) in
   let exc := match snd region with inl e => Some e | inr _ => None end in
   lockers (fst after)
     = fst (lk_exit l handle exc (lockers (fst region))) /\
   fs (fst after) = fs (fst region) /\
   s3 (fst after) = s3 (fst region) /\
   trace (fst after) = trace (fst region)).
Proof.
  intros Htrue entered after. subst entered after.
  rewrite (lock_run l key body w Htrue).
  destruct (BaseExternalLockerStorage.locker_enter l key w) as [w1 [e|h]];
    cbn [fst snd]; split; try discriminate.
  - intros ? [= <-]. reflexivity.
  - intros handle [= <-].
    destruct (body h w1) as [w2 [e|a]]; cbn [fst snd].
    + destruct (lk_exit l h (Some e) (lockers w2)) as [ls [e'|[|]]]; cbn; auto.
    + destruct (lk_exit l h None (lockers w2)) as [ls [e'|b]]; cbn; auto.
Qed.

(** X11. [lock] never turns a failing region into a success.  Without a locker,
    or with one that counts as false, the region runs with the handle [None]
    and its outcome is the outcome.  With a locker, a region that raises makes
    [lock] raise: the error of the locker if leaving it raises, a
    [RuntimeError] if the locker suppresses the exception, the exception of
    the region otherwise; the value of a region that returns is kept unless
    leaving the locker raises. *)
Theorem lock_never_swallows {A : Type} (locker : option (BaseLocker LockerState))
    (key : string) (body : pyobj -> M A) (w : World) :
  let after := BaseExternalLockerStorage.lock locker key body w in
  (match locker with Some l => lk_bool l = false | None => True end ->
   after = body PyNone w) /\
  (forall l handle, locker = Some l -> lk_bool l = true ->
   snd (BaseExternalLockerStorage.locker_enter l key w) = inr handle ->
   let region :=
     body handle (fst (BaseExternalLockerStorage.locker_enter l key w)) in
   (forall e, snd region = inl e ->
    snd after =
      match snd (lk_exit l handle (Some e) (lockers (fst region))) with
      | inl e' => inl e'
      | inr true => inl BaseExternalLockerStorage.generator_didnt_stop
      | inr false => inl e
      end /\
    exists e', snd after = inl e') /\
   (forall a, snd region = inr a ->
    snd after =
      match snd (lk_exit l handle None (lockers (fst region))) with
      | inl e' => inl e'
      | inr _ => inr a
      end)).
Proof.
  intros after. subst after. split.
  - unfold BaseExternalLockerStorage.lock.
    destruct locker as [l|]; [intros ->|]; reflexivity.
  - intros l handle -> Htrue Henter region. subst region.
    rewrite (lock_run l key body w Htrue).
    destruct (BaseExternalLockerStorage.locker_enter l key w) as [w1 r].
    cbn in Henter |- *. subst r.
    destruct (body handle w1) as [w2 [e|a]]; cbn [fst snd]; split;
      try discriminate.
    + intros ? [= <-].
      destruct (lk_exit l handle (Some e) (lockers w2)) as [ls [e'|[|]]];
        cbn; eauto.
    + intros ? [= <-].
      destruct (lk_exit l handle None (lockers w2)) as [ls [e'|b]];
        cbn; auto.
Qed.

End LockProperties.

(** ** The further properties on the concrete collaborators *)

(** What is saved or cleaned up under ["pipeline-1"] leaves ["pipeline-2"]
    without a value. *)
Lemma other_keys_untouched_witness :
  snd (JSONLocalStorage.load Sample.local Scenario.other_key
         Sample.saved_locally) = inr PyNone /\
  snd (S3Storage.load Sample.remote Scenario.other_key
         (fst (S3Storage.cleanup Sample.remote Sample.key Sample.handle
                 Sample.empty_world))) = inr PyNone.
Proof.
  destruct (other_keys_untouched Sample.local Sample.remote Sample.key
              Scenario.other_key Sample.state Sample.handle Sample.empty_world)
    as [[Hsave _] [_ Hcleanup]].
  - vm_compute. discriminate.
  - split.
    + unfold Sample.saved_locally. rewrite Hsave. vm_compute. reflexivity.
    + rewrite Hcleanup. vm_compute. reflexivity.
Defined.

(** The envelope written for ["somebody-else"] is loaded under
    ["pipeline-1"]. *)
Lemma load_ignores_recorded_key_witness :
  snd (JSONLocalStorage.load Sample.local Sample.key Scenario.foreign_envelope)
    = inr Sample.state.
Proof.
  apply (proj1 (load_ignores_recorded_key Sample.local Sample.remote
                  Sample.key "somebody-else" Scenario.payload Sample.state
                  PyNone Scenario.foreign_envelope
                  ltac:(discriminate) ltac:(vm_compute; reflexivity))).
  - vm_compute. discriminate.
  - vm_compute. reflexivity.
  - vm_compute. reflexivity.
Defined.

(** After [cleanup] the local state is gone; in a bucket that refuses
    deletions the state outlives [cleanup]. *)
Lemma load_after_cleanup_witness :
  snd (JSONLocalStorage.load Sample.local Sample.key
         (fst (JSONLocalStorage.cleanup Sample.local Sample.key Sample.handle
                 Sample.saved_locally))) = inr PyNone /\
  snd (S3Storage.load Sample.remote Sample.key
         (fst (S3Storage.cleanup Sample.remote Sample.key Sample.handle
                 (Scenario.with_delete_error Sample.access_denied
                    Sample.saved_remotely)))) = inr Sample.state.
Proof.
  split.
  - apply (load_after_cleanup Sample.local Sample.remote Sample.key
             Sample.handle Sample.saved_locally); vm_compute; reflexivity.
  - destruct (load_after_cleanup Sample.local Sample.remote Sample.key
                Sample.handle
                (Scenario.with_delete_error Sample.access_denied
                   Sample.saved_remotely)) as (_ & _ & Hkept).
    rewrite (Hkept Sample.access_denied); vm_compute; reflexivity.
Defined.

(** An [Error] that is the text ["Code 500, Message lost"] makes
    [_is_not_found_error], and with it [load], raise [TypeError]. *)
Lemma is_not_found_error_outcomes_witness :
  S3Storage._is_not_found_error Scenario.text_error = inl TypeError /\
  snd (S3Storage.load Sample.remote Sample.key
         (Sample.with_download_error Scenario.text_error Sample.empty_world))
    = inl TypeError.
Proof.
  destruct (is_not_found_error_outcomes Sample.remote Sample.key
              Scenario.text_error
              (Sample.with_download_error Scenario.text_error
                 Sample.empty_world)) as (_ & _ & _ & _ & Htext).
  destruct (Htext [("Error", PyStr "Code 500, Message lost")]
              "Code 500, Message lost") as [Hraise Hload];
    [reflexivity..|].
  split; [exact Hraise|]. apply Hload. vm_compute. reflexivity.
Defined.

(** The error of a garbled file is not [FileNotFoundError]. *)
Lemma load_raises_no_not_found_witness :
  JSONDecodeError <> FileNotFoundError.
Proof.
  apply (proj1 (load_raises_no_not_found Sample.local Sample.remote Sample.key
                  Sample.garbled_file JSONDecodeError)).
  vm_compute. reflexivity.
Defined.

(** A file that holds ["{}"] makes [load] raise [KeyError]. *)
Lemma load_malformed_envelope_witness :
  snd (JSONLocalStorage.load Sample.local Sample.key Scenario.bare_object)
    = inl (KeyError "value").
Proof.
  destruct (load_malformed_envelope Sample.local Sample.key "{}" (PyDict [])
              Scenario.bare_object) as [Hmissing _].
  - vm_compute. reflexivity.
  - discriminate.
  - vm_compute. reflexivity.
  - apply (Hmissing []); reflexivity.
Defined.

(** The object uploaded for ["pipeline-1"] records that key. *)
Lemma uploaded_metadata_witness :
  exists payload items,
    objects (s3 Sample.saved_remotely)
      !! (S3Storage.bucket Sample.remote, Sample.remote_name)
      = Some (payload, PyDict items) /\
    dict_get items "key" = Some (PyStr Sample.key).
Proof.
  destruct (uploaded_metadata Sample.remote Sample.key Sample.state
              Sample.empty_world) as (payload & items & _ & Hobj & Hkey & _).
  - vm_compute. reflexivity.
  - exists payload, items. split; [exact Hobj|]. apply Hkey. reflexivity.
Defined.

(** A region that fails under a releasing locker leaves no lock held. *)
Lemma lock_always_releases_witness :
  lockers (fst (@BaseExternalLockerStorage.lock Sample.externals
                  Scenario.releasing pyobj (Some Sample.list_locker)
                  Sample.key Scenario.failing_region Sample.saved_locally))
    = [].
Proof.
  destruct (@lock_always_releases Sample.externals Scenario.releasing pyobj
              Sample.list_locker Sample.key Scenario.failing_region
              Sample.saved_locally eq_refl) as [_ Hleft].
  destruct (Hleft (PyStr Sample.key)) as [Hlockers _].
  - vm_compute. reflexivity.
  - etransitivity; [exact Hlockers|]. vm_compute. reflexivity.
Defined.

(** Under a locker that suppresses exceptions, the failing region ends in the
    [RuntimeError] of contextlib. *)
Lemma lock_never_swallows_witness :
  snd (@BaseExternalLockerStorage.lock Sample.externals Scenario.suppressing
         pyobj (Some Sample.list_locker) Sample.key Scenario.failing_region
         Sample.saved_locally)
    = inl BaseExternalLockerStorage.generator_didnt_stop.
Proof.
  destruct (@lock_never_swallows Sample.externals Scenario.suppressing pyobj
              (Some Sample.list_locker) Sample.key Scenario.failing_region
              Sample.saved_locally) as [_ Hlocked].
  destruct (Hlocked Sample.list_locker (PyStr Sample.key) eq_refl eq_refl)
    as [Hraise _].
  - vm_compute. reflexivity.
  - destruct (Hraise OSError) as [Hresult _].
    + vm_compute. reflexivity.
    + etransitivity; [exact Hresult|]. vm_compute. reflexivity.
Defined.

(** A [save] of the next state over a [save] that failed to pickle its value
    leaves what it leaves on a fresh directory. *)
Lemma save_replaces_wholesale_witness :
  files (fs (fst (JSONLocalStorage.save Sample.local Sample.key
                    Sample.next_state
                    (fst (JSONLocalStorage.save Sample.local Sample.key
                            Sample.callback Sample.empty_world)))))
    = files (fs (fst (JSONLocalStorage.save Sample.local Sample.key
                        Sample.next_state Sample.empty_world))).
Proof.
  apply (proj1 (save_replaces_wholesale Sample.local Sample.remote Sample.key
                  Sample.callback Sample.next_state Sample.empty_world)).
  vm_compute. reflexivity.
Defined.
